(** * AI Job Interview Assistant: the request pipeline of [main.py]

    A shallow embedding of the FastAPI application in [src/main.py]:
    the start-up credential check, the pydantic request model, the four
    agent builders, the four POST handlers with their prompt templates
    and their [try]/[except] blocks, and the two GET handlers.

    The CrewAI framework and the language model behind it are the
    environment of the program.  They are modelled as an oracle (record
    [CrewAI]) that decides, for every constructor call and for
    [kickoff], whether the call returns or raises; every theorem
    quantifies over all such oracles.  The static-file mount and the
    CORS middleware take no part in the properties below and are left
    out. *)

From Stdlib Require Import QArith.
From stdpp Require Import gmap strings list fin_maps.
Local Close Scope Q_scope.
Set Warnings "-register-all".

(** ** Python strings *)

Module Py.

(** The newline character written [\n] in the source. *)
Definition nl : string := String (Ascii.ascii_of_nat 10) EmptyString.

(** [x or d] for [x : str | None]: [None] and the empty string are
    falsy, every other string is truthy. *)
Definition or (x : option string) (d : string) : string :=
  match x with
  | None => d
  | Some EmptyString => d
  | Some s => s
  end.

(** [t.startswith(s)] *)
Fixpoint startswith (s t : string) : bool :=
  match s, t with
  | EmptyString, _ => true
  | String a s', String b t' => if decide (a = b) then startswith s' t' else false
  | String _ _, EmptyString => false
  end.

(** [s in t] *)
Fixpoint contains (s t : string) : bool :=
  startswith s t ||
  match t with
  | EmptyString => false
  | String _ t' => contains s t'
  end.

(** Declarative readings of the two tests. *)
Definition begins_with (s t : string) : Prop := ∃ rest, t = s +:+ rest.
Definition occurs_in (s t : string) : Prop := ∃ before after, t = before +:+ s +:+ after.

End Py.

(** ** Exceptions and outcomes

    [exn] stands for an instance of Python's [Exception]: the class that
    the handlers' [except Exception as e] clauses match.  [exn_str] is
    [str(e)], which is what [print] and the f-string [{e}] render. *)

Record exn := Exn { exn_class : string; exn_str : string }.

Inductive outcome (A : Type) : Type :=
| Returns (a : A)
| Raises (e : exn).
Arguments Returns {A} a.
Arguments Raises {A} e.

(** ** JSON values (request bodies, response bodies)

    Numbers are kept as integers: the request model has no numeric
    field, so their value plays no part. *)

Inductive json : Type :=
| JNull
| JBool (b : bool)
| JNum (n : Z)
| JStr (s : string)
| JArr (l : list json)
| JObj (m : gmap string json).

(** ** Start-up: [load_dotenv], [os.getenv] and the credential check *)

(** The model configuration held in the global [gemini_llm]. *)
Record LLM := {
  llm_model : string;
  llm_api_key : string;
  llm_temperature : Q
}.

(** [load_dotenv()] copies the bindings of the [.env] file into the
    process environment without overriding a variable that is already
    set. *)
Definition load_dotenv (dotenv environ : gmap string string) : gmap string string :=
  environ ∪ dotenv.

(** [os.getenv(name)] *)
Definition getenv (environ : gmap string string) (name : string) : option string :=
  environ !! name.

(** [GEMINI_API_KEY = os.getenv("GEMINI_API_KEY")], read after
    [load_dotenv()]. *)
Definition GEMINI_API_KEY (environ dotenv : gmap string string) : option string :=
  getenv (load_dotenv dotenv environ) "GEMINI_API_KEY".

(** The module body up to the assignment of the global [gemini_llm]:
    the credential check raises [ValueError]; otherwise the check is
    passed and [LLM(...)] is called with the returned arguments. *)
Definition startup (environ dotenv : gmap string string) : outcome LLM :=
  match GEMINI_API_KEY environ dotenv with
  | None =>
      Raises (Exn "ValueError" "GEMINI_API_KEY is not set. Please add it to your .env file.")
  | Some key =>
      Returns {| llm_model := "gemini/gemini-2.5-pro";
                 llm_api_key := key;
                 llm_temperature := 0.4%Q |}
  end.

(** ** The CrewAI framework as the program's environment *)

(** Keyword arguments of [Agent(...)], [Task(...)] and [Crew(...)]. *)
Record AgentArgs := {
  agent_role : string;
  agent_goal : string;
  agent_backstory : string;
  agent_llm : LLM;
  agent_verbose : bool
}.

Record TaskArgs := {
  description : string;
  expected_output : string;
  agent : AgentArgs
}.

Record CrewArgs := {
  agents : list AgentArgs;
  tasks : list TaskArgs;
  verbose : bool
}.

(** The value returned by [crew.kickoff()]; [str(result)] is its raw
    text. *)
Record CrewOutput := { raw : string }.
Definition str (result : CrewOutput) : string := raw result.

(** One behaviour of the framework and of the model provider: each
    constructor either succeeds ([None]) or raises, and [kickoff] either
    returns an output or raises. *)
Record CrewAI := {
  Agent_init : AgentArgs → option exn;
  Task_init : TaskArgs → option exn;
  Crew_init : CrewArgs → option exn;
  Crew_kickoff : CrewArgs → outcome CrewOutput
}.

(** What a request does to the outside world, in order. *)
Inductive event :=
| CallAgent (a : AgentArgs)
| CallTask (t : TaskArgs)
| CallCrew (c : CrewArgs)
| CallKickoff (c : CrewArgs)
| Print (line : string)
| PrintExc (e : exn).

(** ** A state-and-exception monad for handler bodies *)

Definition M (A : Type) : Type := list event → outcome A * list event.

Global Instance M_ret : MRet M := λ A a tr, (Returns a, tr).

Global Instance M_bind : MBind M := λ A B k m tr,
  match m tr with
  | (Returns a, tr') => k a tr'
  | (Raises e, tr') => (Raises e, tr')
  end.

(** [raise e] *)
Global Instance M_throw : MThrow exn M := λ A e tr, (Raises e, tr).

Definition emit (ev : event) : M unit := λ tr, (Returns tt, tr ++ [ev]).

(** [try: body  except Exception as e: handler e] *)
Definition try_except {A} (body : M A) (handler : exn → M A) : M A :=
  λ tr, match body tr with
        | (Returns a, tr') => (Returns a, tr')
        | (Raises e, tr') => handler e tr'
        end.

(** A constructor call of the framework: logged, then it returns its
    arguments as the constructed object or raises. *)
Definition construct {X} (ev : X → event) (init : X → option exn) (x : X) : M X :=
  emit (ev x) ;;
  match init x with
  | None => mret x
  | Some e => mthrow e
  end.

(** ** The request model

    [class JobRoleRequest(BaseModel)]: [role] is required,
    [experience_level] is [str | None] with default ["Fresher"] and
    [tech_stack] is [str | None] with default [None]. *)

Record JobRoleRequest := {
  role : string;
  experience_level : option string;
  tech_stack : option string
}.

(** A Python dict literal with string keys: items are stored from left
    to right, a later item replacing an earlier one with the same key. *)
Definition dict (items : list (string * json)) : gmap string json :=
  foldl (λ d kv, <[kv.1 := kv.2]> d) ∅ items.

(** ** Prompt templates

    The [description=] arguments of the four tasks: adjacent literals and
    f-strings of the source, joined in order. *)

Local Abbreviation nl := Py.nl.

Definition overview_description (role exp tech : string) : string :=
  "Write a structured plain-text interview overview for the role: " +:+ role +:+ "." +:+ nl +:+
  "Experience level: " +:+ exp +:+ ", Tech stack: " +:+ tech +:+ "." +:+ nl +:+
  "Include: role summary, key responsibilities, technical skills, soft skills, " +:+
  "and typical interview rounds (online test, technical rounds, HR, etc.)." +:+ nl +:+
  "Important: No markdown (*, #, **). Plain clean text only.".

Definition technical_description (role exp tech : string) : string :=
  "Generate 10 technical interview questions and answers for the job role: " +:+ role +:+ "." +:+ nl +:+
  "Target candidate level: " +:+ exp +:+ ". Relevant technologies: " +:+ tech +:+ "." +:+ nl +:+
  "Use ONLY plain text (no markdown)." +:+ nl +:+
  "Format STRICTLY like this:" +:+ nl +:+
  "Q1: <question text>" +:+ nl +:+
  "A1: <answer text>" +:+ nl +:+
  "Q2: <question text>" +:+ nl +:+
  "A2: <answer text>" +:+ nl +:+
  "..." +:+ nl +:+
  "Questions should test core fundamentals, problem solving, and role-specific concepts.".

Definition hr_description (role : string) : string :=
  "Generate 10 HR and behavioral interview questions with strong sample answers " +:+
  "for a candidate applying as " +:+ role +:+ "." +:+ nl +:+
  "Focus on communication, teamwork, conflicts, strengths/weaknesses, failure, pressure handling, etc." +:+ nl +:+
  "Plain text only. No markdown." +:+ nl +:+
  "Format STRICTLY like this:" +:+ nl +:+
  "Q1: <question text>" +:+ nl +:+
  "A1: <answer text>" +:+ nl +:+
  "Q2: <question text>" +:+ nl +:+
  "A2: <answer text>" +:+ nl +:+
  "..." +:+ nl +:+
  "Answers should sound like a good B.Tech student preparing for placements.".

Definition tips_description (role exp tech : string) : string :=
  "Give interview tips specifically for the role: " +:+ role +:+ "." +:+ nl +:+
  "Candidate level: " +:+ exp +:+ ", Tech: " +:+ tech +:+ "." +:+ nl +:+
  "Include:" +:+ nl +:+
  "- Do's before the interview (preparation, resume, projects)." +:+ nl +:+
  "- Do's during the interview (body language, how to answer)." +:+ nl +:+
  "- Don'ts (common mistakes students make)." +:+ nl +:+
  "- Final motivation / confidence boost." +:+ nl +:+
  "Use plain text, no markdown, and keep it crisp and practical.".

(** ** Agent builders *)

Section Handlers.

Context (crewai : CrewAI) (gemini_llm : LLM).

Definition Agent : AgentArgs → M AgentArgs := construct CallAgent (Agent_init crewai).
Definition Task : TaskArgs → M TaskArgs := construct CallTask (Task_init crewai).
Definition Crew : CrewArgs → M CrewArgs := construct CallCrew (Crew_init crewai).

(** [crew.kickoff()] *)
Definition kickoff (crew : CrewArgs) : M CrewOutput :=
  emit (CallKickoff crew) ;;
  match Crew_kickoff crewai crew with
  | Returns result => mret result
  | Raises e => mthrow e
  end.

(** [print(label, e)] and [traceback.print_exc()] *)
Definition print (label : string) (e : exn) : M unit :=
  emit (Print (label +:+ " " +:+ exn_str e)).
Definition print_exc (e : exn) : M unit := emit (PrintExc e).

Definition build_career_agent : M AgentArgs :=
  Agent {|
    agent_role := "Career Research Expert";
    agent_goal := "Explain job roles, skills, learning paths, and expectations.";
    agent_backstory := "You help students understand technical job profiles.";
    agent_llm := gemini_llm;
    agent_verbose := true
  |}.

Definition build_technical_agent : M AgentArgs :=
  Agent {|
    agent_role := "Technical Interview Expert";
    agent_goal := "Generate technical interview questions and detailed answers based on job role.";
    agent_backstory := "You have experience as a technical interviewer across IT companies.";
    agent_llm := gemini_llm;
    agent_verbose := true
  |}.

Definition build_hr_agent : M AgentArgs :=
  Agent {|
    agent_role := "HR Interview & Soft Skills Expert";
    agent_goal := "Generate HR/behavioral interview questions with model answers.";
    agent_backstory := "You have experience as HR evaluating communication, attitude and culture fit.";
    agent_llm := gemini_llm;
    agent_verbose := true
  |}.

Definition build_tips_agent : M AgentArgs :=
  Agent {|
    agent_role := "Interview Coach";
    agent_goal := "Give practical interview tips, mistakes to avoid, and tricks to impress interviewer.";
    agent_backstory := "You mentor freshers for college placements.";
    agent_llm := gemini_llm;
    agent_verbose := true
  |}.

(** ** The four POST handlers *)

Definition generate_overview (request : JobRoleRequest) : M (gmap string json) :=
  let role := request.(role) in
  let exp := Py.or request.(experience_level) "Fresher" in
  let tech := Py.or request.(tech_stack) "General" in
  overview_text ← try_except
    (career_agent ← build_career_agent;
     overview_task ← Task {|
       description := overview_description role exp tech;
       expected_output := "Structured interview overview in plain text.";
       agent := career_agent
     |};
     crew ← Crew {| agents := [career_agent]; tasks := [overview_task]; verbose := true |};
     result ← kickoff crew;
     mret (str result))
    (λ e,
     print "Error in overview generation:" e;;
     print_exc e;;
     mret ("Error generating overview: " +:+ exn_str e));
  mret (dict [
    ("role", JStr role);
    ("experience_level", JStr exp);
    ("tech_stack", JStr tech);
    ("overview", JStr overview_text)
  ]).

Definition generate_technical_qa (request : JobRoleRequest) : M (gmap string json) :=
  let role := request.(role) in
  let exp := Py.or request.(experience_level) "Fresher" in
  let tech := Py.or request.(tech_stack) "General" in
  technical_text ← try_except
    (technical_agent ← build_technical_agent;
     technical_task ← Task {|
       description := technical_description role exp tech;
       expected_output := "10 technical Q&A pairs in the specified Q/A format.";
       agent := technical_agent
     |};
     crew ← Crew {| agents := [technical_agent]; tasks := [technical_task]; verbose := true |};
     result ← kickoff crew;
     mret (str result))
    (λ e,
     print "Error in technical Q&A generation:" e;;
     print_exc e;;
     mret ("Error generating technical Q&A: " +:+ exn_str e));
  mret (dict [
    ("role", JStr role);
    ("experience_level", JStr exp);
    ("tech_stack", JStr tech);
    ("technical_qa", JStr technical_text)
  ]).

Definition generate_hr_qa (request : JobRoleRequest) : M (gmap string json) :=
  let role := request.(role) in
  let exp := Py.or request.(experience_level) "Fresher" in
  let tech := Py.or request.(tech_stack) "General" in
  hr_text ← try_except
    (hr_agent ← build_hr_agent;
     hr_task ← Task {|
       description := hr_description role;
       expected_output := "10 HR Q&A pairs in the specified Q/A format.";
       agent := hr_agent
     |};
     crew ← Crew {| agents := [hr_agent]; tasks := [hr_task]; verbose := true |};
     result ← kickoff crew;
     mret (str result))
    (λ e,
     print "Error in HR Q&A generation:" e;;
     print_exc e;;
     mret ("Error generating HR Q&A: " +:+ exn_str e));
  mret (dict [
    ("role", JStr role);
    ("experience_level", JStr exp);
    ("tech_stack", JStr tech);
    ("hr_qa", JStr hr_text)
  ]).

Definition generate_interview_tips (request : JobRoleRequest) : M (gmap string json) :=
  let role := request.(role) in
  let exp := Py.or request.(experience_level) "Fresher" in
  let tech := Py.or request.(tech_stack) "General" in
  tips_text ← try_except
    (tips_agent ← build_tips_agent;
     tips_task ← Task {|
       description := tips_description role exp tech;
       expected_output := "Practical do's, don'ts and success tips in plain text.";
       agent := tips_agent
     |};
     crew ← Crew {| agents := [tips_agent]; tasks := [tips_task]; verbose := true |};
     result ← kickoff crew;
     mret (str result))
    (λ e,
     print "Error in tips generation:" e;;
     print_exc e;;
     mret ("Error generating interview tips: " +:+ exn_str e));
  mret (dict [
    ("role", JStr role);
    ("experience_level", JStr exp);
    ("tech_stack", JStr tech);
    ("interview_tips", JStr tips_text)
  ]).

(** ** The two GET handlers *)

Definition health_check : gmap string json := dict [("status", JStr "ok")].

End Handlers.

(** [root()] returns [FileResponse("static/index.html")]. *)
Definition root : string := "static/index.html".

(** ** Request validation

    What pydantic does with the parsed JSON body for the field
    declarations of [JobRoleRequest]: a [str] field accepts a JSON string
    only; a [str | None] field also accepts [null]; an absent key takes
    the declared default, and is an error when there is none.  Keys that
    the model does not declare are ignored. *)

Inductive field_error := Missing | StringType | ModelAttributesType.

Definition required_str (v : option json) : field_error + string :=
  match v with
  | None => inl Missing
  | Some (JStr s) => inr s
  | Some _ => inl StringType
  end.

Definition optional_str (default : option string) (v : option json)
    : field_error + option string :=
  match v with
  | None => inr default
  | Some JNull => inr None
  | Some (JStr s) => inr (Some s)
  | Some _ => inl StringType
  end.

Definition error_at {A} (loc : string) (r : field_error + A) : list (string * field_error) :=
  match r with
  | inl err => [(loc, err)]
  | inr _ => []
  end.

Definition JobRoleRequest_validate (body : option json)
    : list (string * field_error) + JobRoleRequest :=
  match body with
  | None => inl [("body", Missing)]
  | Some (JObj m) =>
      let r := required_str (m !! "role") in
      let e := optional_str (Some "Fresher") (m !! "experience_level") in
      let t := optional_str None (m !! "tech_stack") in
      match r, e, t with
      | inr r', inr e', inr t' =>
          inr {| role := r'; experience_level := e'; tech_stack := t' |}
      | _, _, _ =>
          inl (error_at "role" r ++ error_at "experience_level" e ++ error_at "tech_stack" t)
      end
  | Some _ => inl [("body", ModelAttributesType)]
  end.

(** ** The application: routes and HTTP responses *)

Inductive content :=
| JSONResponse (j : json)
| FileResponse (path : string)
| RequestValidationError (errors : list (string * field_error))
| InternalServerError.

Record response := { status_code : nat; body_content : content }.

Inductive route :=
| GET_root
| GET_health
| POST_generate_overview
| POST_generate_technical_qa
| POST_generate_hr_qa
| POST_generate_interview_tips.

(** A POST route declared with a [JobRoleRequest] parameter: the body is
    validated first (422 on failure, the handler is not called); a dict
    returned by the handler is sent as JSON with status 200; an exception
    leaving the handler is a 500.  Each request starts with an empty
    trace. *)
Definition post (handler : JobRoleRequest → M (gmap string json)) (body : option json)
    : response * list event :=
  match JobRoleRequest_validate body with
  | inl errors =>
      ({| status_code := 422; body_content := RequestValidationError errors |}, [])
  | inr request =>
      match handler request [] with
      | (Returns d, tr) => ({| status_code := 200; body_content := JSONResponse (JObj d) |}, tr)
      | (Raises _, tr) => ({| status_code := 500; body_content := InternalServerError |}, tr)
      end
  end.

Definition app_request (crewai : CrewAI) (gemini_llm : LLM) (r : route) (body : option json)
    : response * list event :=
  match r with
  | GET_root => ({| status_code := 200; body_content := FileResponse root |}, [])
  | GET_health => ({| status_code := 200; body_content := JSONResponse (JObj health_check) |}, [])
  | POST_generate_overview => post (generate_overview crewai gemini_llm) body
  | POST_generate_technical_qa => post (generate_technical_qa crewai gemini_llm) body
  | POST_generate_hr_qa => post (generate_hr_qa crewai gemini_llm) body
  | POST_generate_interview_tips => post (generate_interview_tips crewai gemini_llm) body
  end.

(** ** The four generation categories *)

Inductive category := Overview | TechnicalQA | HRQA | InterviewTips.

Definition endpoint (c : category) : route :=
  match c with
  | Overview => POST_generate_overview
  | TechnicalQA => POST_generate_technical_qa
  | HRQA => POST_generate_hr_qa
  | InterviewTips => POST_generate_interview_tips
  end.

(** The key of the generated text in the response. *)
Definition category_field (c : category) : string :=
  match c with
  | Overview => "overview"
  | TechnicalQA => "technical_qa"
  | HRQA => "hr_qa"
  | InterviewTips => "interview_tips"
  end.

(** The name of the category in the handler's error message. *)
Definition category_name (c : category) : string :=
  match c with
  | Overview => "overview"
  | TechnicalQA => "technical Q&A"
  | HRQA => "HR Q&A"
  | InterviewTips => "interview tips"
  end.

(** The handler behind each category's endpoint. *)
Definition handler (crewai : CrewAI) (gemini_llm : LLM) (c : category)
    : JobRoleRequest → M (gmap string json) :=
  match c with
  | Overview => generate_overview crewai gemini_llm
  | TechnicalQA => generate_technical_qa crewai gemini_llm
  | HRQA => generate_hr_qa crewai gemini_llm
  | InterviewTips => generate_interview_tips crewai gemini_llm
  end.

(** The instruction string of the category's task. *)
Definition task_description (c : category) (role exp tech : string) : string :=
  match c with
  | Overview => overview_description role exp tech
  | TechnicalQA => technical_description role exp tech
  | HRQA => hr_description role
  | InterviewTips => tips_description role exp tech
  end.

(** The defaulted fields that a handler echoes. *)
Definition exp_of (request : JobRoleRequest) : string :=
  Py.or request.(experience_level) "Fresher".
Definition tech_of (request : JobRoleRequest) : string :=
  Py.or request.(tech_stack) "General".

(** The response dict of a handler, as a function of the generated
    text. *)
Definition envelope (c : category) (request : JobRoleRequest) (text : string)
    : gmap string json :=
  dict [
    ("role", JStr request.(role));
    ("experience_level", JStr (exp_of request));
    ("tech_stack", JStr (tech_of request));
    (category_field c, JStr text)
  ].

(** The text a handler stores when it catches [e]. *)
Definition error_text (c : category) (e : exn) : string :=
  "Error generating " +:+ category_name c +:+ ": " +:+ exn_str e.

(** [raised_by crewai ev e]: the framework call logged as [ev] raised
    [e]. *)
Definition raised_by (crewai : CrewAI) (ev : event) (e : exn) : Prop :=
  match ev with
  | CallAgent a => Agent_init crewai a = Some e
  | CallTask t => Task_init crewai t = Some e
  | CallCrew c => Crew_init crewai c = Some e
  | CallKickoff c => Crew_kickoff crewai c = Raises e
  | Print _ | PrintExc _ => False
  end.

(** [omits key body]: the body is not a JSON object with that key. *)
Definition omits (key : string) (body : option json) : bool :=
  match body with
  | Some (JObj m) => match m !! key with None => true | Some _ => false end
  | _ => true
  end.

(** [supplies key v body]: the body is a JSON object that binds the key
    to [v]. *)
Definition supplies (key : string) (v : json) (body : option json) : Prop :=
  ∃ m, body = Some (JObj m) ∧ m !! key = Some v.

(** The field of a JSON response, when the response is a JSON object. *)
Definition json_field (r : response) (key : string) : option json :=
  match body_content r with
  | JSONResponse (JObj d) => d !! key
  | _ => None
  end.

(** The key set of a JSON response. *)
Definition json_keys (r : response) : option (gset string) :=
  match body_content r with
  | JSONResponse (JObj d) => Some (dom d)
  | _ => None
  end.

(** The response and the trace of one request. *)
Definition response_of (crewai : CrewAI) (llm : LLM) (r : route) (body : option json)
    : response :=
  (app_request crewai llm r body).1.

Definition trace_of (crewai : CrewAI) (llm : LLM) (r : route) (body : option json)
    : list event :=
  (app_request crewai llm r body).2.

(** ** Test fixtures: concrete framework behaviours and request bodies *)

Definition test_llm : LLM :=
  {| llm_model := "gemini/gemini-2.5-pro"; llm_api_key := "test-key";
     llm_temperature := 0.4%Q |}.

(** Every call succeeds; the model answers with a fixed text. *)
Definition crewai_up : CrewAI :=
  {| Agent_init := λ _, None;
     Task_init := λ _, None;
     Crew_init := λ _, None;
     Crew_kickoff := λ _, Returns {| raw := "generated text" |} |}.

(** The provider cannot be reached: [kickoff] raises. *)
Definition crewai_down : CrewAI :=
  {| Agent_init := λ _, None;
     Task_init := λ _, None;
     Crew_init := λ _, None;
     Crew_kickoff := λ _, Raises (Exn "ConnectionError" "network unreachable") |}.

(** The agent constructor raises. *)
Definition crewai_no_agent : CrewAI :=
  {| Agent_init := λ _, Some (Exn "ValidationError" "bad agent");
     Task_init := λ _, None;
     Crew_init := λ _, None;
     Crew_kickoff := λ _, Returns {| raw := "generated text" |} |}.

(** The task constructor raises. *)
Definition crewai_no_task : CrewAI :=
  {| Agent_init := λ _, None;
     Task_init := λ _, Some (Exn "ValidationError" "bad task");
     Crew_init := λ _, None;
     Crew_kickoff := λ _, Returns {| raw := "generated text" |} |}.

(** [{"role": "Data Analyst"}] *)
Definition body_role_only : option json :=
  Some (JObj {[ "role" := JStr "Data Analyst" ]}).

(** [{"role": "Backend Developer", "experience_level": "Fresher",
      "tech_stack": "Python, SQL"}] *)
Definition body_full : option json :=
  Some (JObj (dict [("role", JStr "Backend Developer");
                    ("experience_level", JStr "Fresher");
                    ("tech_stack", JStr "Python, SQL")])).

(** A body with [role] "Nurse", [experience_level] null and the empty
    string as [tech_stack]. *)
Definition body_falsy : option json :=
  Some (JObj (dict [("role", JStr "Nurse");
                    ("experience_level", JNull);
                    ("tech_stack", JStr EmptyString)])).

(** [{"role": "Nurse", "experience_level": "Senior", "tech_stack": "Rust"}] *)
Definition body_senior : option json :=
  Some (JObj (dict [("role", JStr "Nurse");
                    ("experience_level", JStr "Senior");
                    ("tech_stack", JStr "Rust")])).

(** [{"experience_level": "Senior"}] *)
Definition body_no_role : option json :=
  Some (JObj {[ "experience_level" := JStr "Senior" ]}).

Definition career_agent_args : AgentArgs :=
  {| agent_role := "Career Research Expert";
     agent_goal := "Explain job roles, skills, learning paths, and expectations.";
     agent_backstory := "You help students understand technical job profiles.";
     agent_llm := test_llm;
     agent_verbose := true |}.

Definition overview_task_args : TaskArgs :=
  {| description := overview_description "Data Analyst" "Fresher" "General";
     expected_output := "Structured interview overview in plain text.";
     agent := career_agent_args |}.

Definition hr_task_args : TaskArgs :=
  {| description := hr_description "Nurse";
     expected_output := "10 HR Q&A pairs in the specified Q/A format.";
     agent :=
       {| agent_role := "HR Interview & Soft Skills Expert";
          agent_goal := "Generate HR/behavioral interview questions with model answers.";
          agent_backstory := "You have experience as HR evaluating communication, attitude and culture fit.";
          agent_llm := test_llm;
          agent_verbose := true |} |}.

(** ** The calls of one handler run *)

(** [Crew(agents=[a], tasks=[t], verbose=True)] *)
Definition crew_of (a : AgentArgs) (t : TaskArgs) : CrewArgs :=
  {| agents := [a]; tasks := [t]; verbose := true |}.

(** The first argument of the [print] call in each handler's [except]
    clause. *)
Definition log_label (c : category) : string :=
  match c with
  | Overview => "Error in overview generation:"
  | TechnicalQA => "Error in technical Q&A generation:"
  | HRQA => "Error in HR Q&A generation:"
  | InterviewTips => "Error in tips generation:"
  end.

(** What the [except] clause writes: the printed line, then the
    traceback. *)
Definition failure_log (c : category) (e : exn) : list event :=
  [Print (log_label c +:+ " " +:+ exn_str e); PrintExc e].

(** The [role=] argument of each category's agent builder. *)
Definition agent_role_of (c : category) : string :=
  match c with
  | Overview => "Career Research Expert"
  | TechnicalQA => "Technical Interview Expert"
  | HRQA => "HR Interview & Soft Skills Expert"
  | InterviewTips => "Interview Coach"
  end.

(** Framework calls, as opposed to log output. *)
Definition is_call (ev : event) : bool :=
  match ev with
  | CallAgent _ | CallTask _ | CallCrew _ | CallKickoff _ => true
  | Print _ | PrintExc _ => false
  end.

(** The crews on which [kickoff] was called, in order. *)
Definition kickoff_calls (tr : list event) : list CrewArgs :=
  omap (λ ev, match ev with CallKickoff crew => Some crew | _ => None end) tr.

(** The five ways a [try] block can go: all four calls succeed, or the
    first call that raises ends the block and the [except] clause logs
    the exception. *)
Inductive run_shape (crewai : CrewAI) (c : category) (a : AgentArgs) (t : TaskArgs)
    : list event → Prop :=
| run_ok result :
    Agent_init crewai a = None →
    Task_init crewai t = None →
    Crew_init crewai (crew_of a t) = None →
    Crew_kickoff crewai (crew_of a t) = Returns result →
    run_shape crewai c a t
      [CallAgent a; CallTask t; CallCrew (crew_of a t); CallKickoff (crew_of a t)]
| run_agent_raises e :
    Agent_init crewai a = Some e →
    run_shape crewai c a t (CallAgent a :: failure_log c e)
| run_task_raises e :
    Agent_init crewai a = None →
    Task_init crewai t = Some e →
    run_shape crewai c a t (CallAgent a :: CallTask t :: failure_log c e)
| run_crew_raises e :
    Agent_init crewai a = None →
    Task_init crewai t = None →
    Crew_init crewai (crew_of a t) = Some e →
    run_shape crewai c a t
      (CallAgent a :: CallTask t :: CallCrew (crew_of a t) :: failure_log c e)
| run_kickoff_raises e :
    Agent_init crewai a = None →
    Task_init crewai t = None →
    Crew_init crewai (crew_of a t) = None →
    Crew_kickoff crewai (crew_of a t) = Raises e →
    run_shape crewai c a t
      (CallAgent a :: CallTask t :: CallCrew (crew_of a t) ::
       CallKickoff (crew_of a t) :: failure_log c e).

(** The keyword arguments that each category's builder passes to
    [Agent(...)]. *)
Definition agent_args (gemini_llm : LLM) (c : category) : AgentArgs :=
  match c with
  | Overview =>
      {| agent_role := "Career Research Expert";
         agent_goal := "Explain job roles, skills, learning paths, and expectations.";
         agent_backstory := "You help students understand technical job profiles.";
         agent_llm := gemini_llm;
         agent_verbose := true |}
  | TechnicalQA =>
      {| agent_role := "Technical Interview Expert";
         agent_goal := "Generate technical interview questions and detailed answers based on job role.";
         agent_backstory := "You have experience as a technical interviewer across IT companies.";
         agent_llm := gemini_llm;
         agent_verbose := true |}
  | HRQA =>
      {| agent_role := "HR Interview & Soft Skills Expert";
         agent_goal := "Generate HR/behavioral interview questions with model answers.";
         agent_backstory := "You have experience as HR evaluating communication, attitude and culture fit.";
         agent_llm := gemini_llm;
         agent_verbose := true |}
  | InterviewTips =>
      {| agent_role := "Interview Coach";
         agent_goal := "Give practical interview tips, mistakes to avoid, and tricks to impress interviewer.";
         agent_backstory := "You mentor freshers for college placements.";
         agent_llm := gemini_llm;
         agent_verbose := true |}
  end.

(** The [expected_output=] argument of each category's task. *)
Definition expected_output_of (c : category) : string :=
  match c with
  | Overview => "Structured interview overview in plain text."
  | TechnicalQA => "10 technical Q&A pairs in the specified Q/A format."
  | HRQA => "10 HR Q&A pairs in the specified Q/A format."
  | InterviewTips => "Practical do's, don'ts and success tips in plain text."
  end.

(** The keyword arguments that a category's handler passes to
    [Task(...)] for a request. *)
Definition task_args (gemini_llm : LLM) (c : category) (request : JobRoleRequest)
    : TaskArgs :=
  {| description :=
       task_description c request.(role) (exp_of request) (tech_of request);
     expected_output := expected_output_of c;
     agent := agent_args gemini_llm c |}.

(** [generation_raises crewai a t e]: in the framework behaviour
    [crewai], generating with agent arguments [a] and task arguments [t]
    raises [e]: the agent constructor raises it, or that returns and the
    task constructor raises it, or both return and the crew constructor
    raises it, or all three return and [kickoff] raises it. *)
Inductive generation_raises (crewai : CrewAI) (a : AgentArgs) (t : TaskArgs) (e : exn)
    : Prop :=
| agent_construction_raises :
    Agent_init crewai a = Some e →
    generation_raises crewai a t e
| task_construction_raises :
    Agent_init crewai a = None →
    Task_init crewai t = Some e →
    generation_raises crewai a t e
| crew_construction_raises :
    Agent_init crewai a = None →
    Task_init crewai t = None →
    Crew_init crewai (crew_of a t) = Some e →
    generation_raises crewai a t e
| kickoff_raises :
    Agent_init crewai a = None →
    Task_init crewai t = None →
    Crew_init crewai (crew_of a t) = None →
    Crew_kickoff crewai (crew_of a t) = Raises e →
    generation_raises crewai a t e.

(** A framework in which every call succeeds and the model answers
    [text]. *)
Definition crewai_answering (text : string) : CrewAI :=
  {| Agent_init := λ _, None;
     Task_init := λ _, None;
     Crew_init := λ _, None;
     Crew_kickoff := λ _, Returns {| raw := text |} |}.

(** A body whose [role] is the empty string. *)
Definition body_empty_role : option json :=
  Some (JObj {[ "role" := JStr EmptyString ]}).

(** * Properties *)

(** ** Strings *)

Lemma append_cons (a : Ascii.ascii) (s t : string) :
  String a s +:+ t = String a (s +:+ t).
Proof. reflexivity. Qed.

Lemma append_nil_l (t : string) : EmptyString +:+ t = t.
Proof. reflexivity. Qed.

Lemma append_assoc (s t u : string) : (s +:+ t) +:+ u = s +:+ t +:+ u.
Proof.
  induction s as [|a s IH]; [done|].
  by rewrite !append_cons, IH.
Qed.

Lemma startswith_append (s rest : string) : Py.startswith s (s +:+ rest) = true.
Proof.
  induction s as [|a s IH]; [done|].
  rewrite append_cons. simpl. by rewrite decide_True.
Qed.

Lemma startswith_spec (s t : string) :
  Py.startswith s t = true ↔ Py.begins_with s t.
Proof.
  split.
  - revert t. induction s as [|a s IH]; intros t H.
    + by exists t.
    + destruct t as [|b t]; [done|]. simpl in H.
      destruct (decide (a = b)) as [->|]; [|done].
      destruct (IH _ H) as [rest ->]. by exists rest.
  - intros [rest ->]. apply startswith_append.
Qed.

Lemma contains_append (before s after : string) :
  Py.contains s (before +:+ s +:+ after) = true.
Proof.
  induction before as [|a before IH].
  - rewrite append_nil_l.
    destruct (s +:+ after) eqn:E; simpl; rewrite <- E, startswith_append; done.
  - rewrite append_cons. simpl. rewrite IH. apply orb_true_r.
Qed.

Lemma contains_spec (s t : string) :
  Py.contains s t = true ↔ Py.occurs_in s t.
Proof.
  split.
  - induction t as [|b t IH]; simpl; intros H.
    + rewrite orb_false_r in H. apply startswith_spec in H as [rest ->].
      by exists EmptyString, rest.
    + apply orb_true_iff in H as [H|H].
      * apply startswith_spec in H as [rest ->]. by exists EmptyString, rest.
      * destruct (IH H) as (before & after & ->).
        by exists (String b before), after.
  - intros (before & after & ->). apply contains_append.
Qed.

Lemma occurs_in_append_r (s t u : string) :
  Py.occurs_in s u → Py.occurs_in s (t +:+ u).
Proof.
  intros (before & after & ->). exists (t +:+ before), after.
  by rewrite append_assoc.
Qed.

Lemma occurs_in_head (s after : string) : Py.occurs_in s (s +:+ after).
Proof. by exists EmptyString, after. Qed.

(** ** Running a handler *)

Ltac unfold_handler :=
  cbv [handler generate_overview generate_technical_qa generate_hr_qa
       generate_interview_tips build_career_agent build_technical_agent
       build_hr_agent build_tips_agent Agent Task Crew kickoff construct
       print print_exc emit try_except mbind M_bind mret M_ret mthrow M_throw
       envelope exp_of tech_of category_field].

Ltac case_oracle :=
  repeat match goal with
  | |- context [match Agent_init ?fw ?a with _ => _ end] =>
      destruct (Agent_init fw a) eqn:?
  | |- context [match Task_init ?fw ?a with _ => _ end] =>
      destruct (Task_init fw a) eqn:?
  | |- context [match Crew_init ?fw ?a with _ => _ end] =>
      destruct (Crew_init fw a) eqn:?
  | |- context [match Crew_kickoff ?fw ?a with _ => _ end] =>
      destruct (Crew_kickoff fw a) eqn:?
  end.

Ltac split_elem H :=
  repeat match type of H with
  | _ ∈ _ :: _ => apply elem_of_cons in H; destruct H as [H|H]
  | _ ∈ [] => apply elem_of_nil in H; destruct H
  end.

Ltac find_raise H :=
  exfalso;
  match goal with
  | Hr : Agent_init _ ?a = Some ?e |- _ => apply (H (CallAgent a) e); [repeat constructor | exact Hr]
  | Hr : Task_init _ ?a = Some ?e |- _ => apply (H (CallTask a) e); [repeat constructor | exact Hr]
  | Hr : Crew_init _ ?a = Some ?e |- _ => apply (H (CallCrew a) e); [repeat constructor | exact Hr]
  | Hr : Crew_kickoff _ ?a = Raises ?e |- _ => apply (H (CallKickoff a) e); [repeat constructor | exact Hr]
  end.

(** Every run of a handler returns the envelope.  Its text is the
    error text of the exception whenever a framework call of the run
    raised; when none did, it is the text of the output that [kickoff]
    returned. *)
Lemma handler_run (crewai : CrewAI) (llm : LLM) (c : category) (request : JobRoleRequest) :
  ∃ text tr,
    handler crewai llm c request [] = (Returns (envelope c request text), tr) ∧
    (∀ ev e, ev ∈ tr → raised_by crewai ev e → text = error_text c e) ∧
    ((∀ ev e, ev ∈ tr → ¬ raised_by crewai ev e) →
     ∃ crew result,
       CallKickoff crew ∈ tr ∧ Crew_kickoff crewai crew = Returns result ∧ text = str result).
Proof.
  destruct c; unfold_handler; case_oracle.
  all: do 2 eexists; split; [reflexivity|]; split;
    [ intros ev e' Hin Hr; simpl in Hin; split_elem Hin; subst ev;
      simpl in Hr; try contradiction; try congruence;
      replace e' with e by congruence; reflexivity
    | intros Hnone;
      first [ find_raise Hnone
            | do 2 eexists; split; [repeat constructor|]; split; [eassumption|reflexivity] ] ].
Qed.

(** ** The envelope *)

Lemma category_field_neq_echo (c : category) :
  category_field c ≠ "role" ∧ category_field c ≠ "experience_level" ∧
  category_field c ≠ "tech_stack".
Proof. by destruct c. Qed.

Lemma category_field_inj : Inj (=) (=) category_field.
Proof. intros [] [] H; first [reflexivity | discriminate H]. Qed.

Lemma envelope_dom (c : category) (request : JobRoleRequest) (text : string) :
  dom (envelope c request text) =
  {[ "role"; "experience_level"; "tech_stack"; category_field c ]}.
Proof.
  unfold envelope, dict. simpl.
  rewrite !dom_insert_L, dom_empty_L. apply set_eq. intros key.
  rewrite !elem_of_union, !elem_of_singleton, elem_of_empty. tauto.
Qed.

Lemma envelope_role (c : category) (request : JobRoleRequest) (text : string) :
  envelope c request text !! "role" = Some (JStr request.(role)).
Proof.
  destruct (category_field_neq_echo c) as (? & ? & ?).
  unfold envelope, dict. simpl. by simplify_map_eq.
Qed.

Lemma envelope_experience_level (c : category) (request : JobRoleRequest) (text : string) :
  envelope c request text !! "experience_level" = Some (JStr (exp_of request)).
Proof.
  destruct (category_field_neq_echo c) as (? & ? & ?).
  unfold envelope, dict. simpl. by simplify_map_eq.
Qed.

Lemma envelope_tech_stack (c : category) (request : JobRoleRequest) (text : string) :
  envelope c request text !! "tech_stack" = Some (JStr (tech_of request)).
Proof.
  destruct (category_field_neq_echo c) as (? & ? & ?).
  unfold envelope, dict. simpl. by simplify_map_eq.
Qed.

Lemma envelope_text (c : category) (request : JobRoleRequest) (text : string) :
  envelope c request text !! category_field c = Some (JStr text).
Proof. unfold envelope, dict. simpl. by simplify_map_eq. Qed.

Lemma envelope_other (c c' : category) (request : JobRoleRequest) (text : string) :
  c' ≠ c → envelope c request text !! category_field c' = None.
Proof.
  intros Hne. apply not_elem_of_dom. rewrite envelope_dom.
  destruct (category_field_neq_echo c') as (? & ? & ?).
  assert (category_field c' ≠ category_field c) by (intros ?%category_field_inj; done).
  rewrite !elem_of_union, !elem_of_singleton. tauto.
Qed.

(** ** Running an endpoint *)

Lemma app_request_endpoint (crewai : CrewAI) (llm : LLM) (c : category) (body : option json) :
  app_request crewai llm (endpoint c) body = post (handler crewai llm c) body.
Proof. by destruct c. Qed.

Lemma endpoint_run (crewai : CrewAI) (llm : LLM) (c : category)
    (body : option json) (request : JobRoleRequest) :
  JobRoleRequest_validate body = inr request →
  ∃ text,
    response_of crewai llm (endpoint c) body =
      {| status_code := 200; body_content := JSONResponse (JObj (envelope c request text)) |} ∧
    (∀ ev e, ev ∈ trace_of crewai llm (endpoint c) body →
             raised_by crewai ev e → text = error_text c e) ∧
    ((∀ ev e, ev ∈ trace_of crewai llm (endpoint c) body → ¬ raised_by crewai ev e) →
     ∃ crew result,
       CallKickoff crew ∈ trace_of crewai llm (endpoint c) body ∧
       Crew_kickoff crewai crew = Returns result ∧ text = str result).
Proof.
  intros Hvalid. unfold response_of, trace_of.
  rewrite app_request_endpoint. unfold post. rewrite Hvalid.
  destruct (handler_run crewai llm c request) as (text & tr & -> & Herr & Hok).
  by exists text.
Qed.

(** The status and the key set of the answer to a valid body. *)
Lemma response_keys (crewai : CrewAI) (llm : LLM) (c : category)
    (body : option json) (request : JobRoleRequest) :
  JobRoleRequest_validate body = inr request →
  status_code (response_of crewai llm (endpoint c) body) = 200 ∧
  json_keys (response_of crewai llm (endpoint c) body) =
    Some {[ "role"; "experience_level"; "tech_stack"; category_field c ]}.
Proof.
  intros Hvalid.
  destruct (endpoint_run crewai llm c body request Hvalid) as (text & -> & _).
  unfold json_keys. simpl. by rewrite envelope_dom.
Qed.

Example validate_role_only :
  JobRoleRequest_validate body_role_only =
  inr {| role := "Data Analyst"; experience_level := Some "Fresher"; tech_stack := None |}.
Proof. reflexivity. Qed.

Example validate_no_role :
  JobRoleRequest_validate body_no_role = inl [("role", Missing)].
Proof. reflexivity. Qed.

Example overview_when_up :
  response_of crewai_up test_llm POST_generate_overview body_role_only =
  {| status_code := 200;
     body_content := JSONResponse (JObj (dict [
       ("role", JStr "Data Analyst");
       ("experience_level", JStr "Fresher");
       ("tech_stack", JStr "General");
       ("overview", JStr "generated text")])) |}.
Proof. reflexivity. Qed.

Example technical_qa_when_down :
  response_of crewai_down test_llm POST_generate_technical_qa body_full =
  {| status_code := 200;
     body_content := JSONResponse (JObj (dict [
       ("role", JStr "Backend Developer");
       ("experience_level", JStr "Fresher");
       ("tech_stack", JStr "Python, SQL");
       ("technical_qa", JStr "Error generating technical Q&A: network unreachable")])) |}.
Proof. reflexivity. Qed.

Example tips_when_task_fails :
  json_field (response_of crewai_no_task test_llm POST_generate_interview_tips body_falsy)
    "interview_tips" = Some (JStr "Error generating interview tips: bad task").
Proof. reflexivity. Qed.

Example trace_when_agent_fails :
  trace_of crewai_no_agent test_llm POST_generate_overview body_role_only =
  [CallAgent career_agent_args;
   Print "Error in overview generation: bad agent";
   PrintExc (Exn "ValidationError" "bad agent")].
Proof. reflexivity. Qed.

Example overview_prompt_first_lines :
  Py.startswith
    ("Write a structured plain-text interview overview for the role: Data Analyst." +:+ nl +:+
     "Experience level: Fresher, Tech stack: General." +:+ nl)
    (overview_description "Data Analyst" "Fresher" "General") = true.
Proof. reflexivity. Qed.

Example hr_prompt_first_line :
  Py.startswith
    ("Generate 10 HR and behavioral interview questions with strong sample answers " +:+
     "for a candidate applying as Nurse." +:+ nl)
    (hr_description "Nurse") = true.
Proof. reflexivity. Qed.

Example hr_trace_when_down :
  trace_of crewai_down test_llm POST_generate_hr_qa body_senior =
  [CallAgent (agent hr_task_args);
   CallTask hr_task_args;
   CallCrew {| agents := [agent hr_task_args]; tasks := [hr_task_args]; verbose := true |};
   CallKickoff {| agents := [agent hr_task_args]; tasks := [hr_task_args]; verbose := true |};
   Print "Error in HR Q&A generation: network unreachable";
   PrintExc (Exn "ConnectionError" "network unreachable")].
Proof. reflexivity. Qed.

(** ** Error handling of the POST endpoints *)

(** Seen from the trace: when a call that the handler made raised an
    exception, the endpoint answers 200 and the category field is the
    string "Error generating <category>: " followed by the text of the
    exception. *)
Theorem generation_error_yields_200_with_error_text
    (crewai : CrewAI) (llm : LLM) (c : category)
    (body : option json) (request : JobRoleRequest) (ev : event) (e : exn) :
  JobRoleRequest_validate body = inr request →
  ev ∈ trace_of crewai llm (endpoint c) body →
  raised_by crewai ev e →
  status_code (response_of crewai llm (endpoint c) body) = 200 ∧
  ∃ text,
    json_field (response_of crewai llm (endpoint c) body) (category_field c)
      = Some (JStr text) ∧
    text = "Error generating " +:+ category_name c +:+ ": " +:+ exn_str e ∧
    Py.startswith ("Error generating " +:+ category_name c +:+ ": ") text = true.
Proof.
  intros Hvalid Hin Hraised.
  destruct (endpoint_run crewai llm c body request Hvalid) as (text & Hresp & Herr & _).
  rewrite Hresp. split; [done|]. exists text.
  unfold json_field. simpl. rewrite envelope_text. split; [done|].
  rewrite (Herr ev e Hin Hraised). split; [done|].
  unfold error_text. rewrite <- !append_assoc. apply startswith_append.
Qed.

Lemma generation_error_yields_200_with_error_text_witness :
  status_code (response_of crewai_no_agent test_llm (endpoint Overview) body_role_only) = 200 ∧
  ∃ text,
    json_field (response_of crewai_no_agent test_llm (endpoint Overview) body_role_only)
      (category_field Overview) = Some (JStr text) ∧
    text = "Error generating " +:+ category_name Overview +:+ ": " +:+
           exn_str (Exn "ValidationError" "bad agent") ∧
    Py.startswith ("Error generating " +:+ category_name Overview +:+ ": ") text = true.
Proof.
  apply (generation_error_yields_200_with_error_text
           crewai_no_agent test_llm Overview body_role_only
           {| role := "Data Analyst"; experience_level := Some "Fresher"; tech_stack := None |}
           (CallAgent career_agent_args) (Exn "ValidationError" "bad agent")).
  - reflexivity.
  - vm_compute. apply list_elem_of_here.
  - reflexivity.
Defined.

(** ** Shape of the response *)

(** C2: for every valid request body, each of the four POST endpoints
    answers 200 with a JSON object whose keys are exactly [role],
    [experience_level], [tech_stack] and the field of the endpoint's
    category; the category field holds a string, and no field of another
    category is present. *)
Theorem post_response_shape
    (crewai : CrewAI) (llm : LLM) (c : category)
    (body : option json) (request : JobRoleRequest) :
  JobRoleRequest_validate body = inr request →
  status_code (response_of crewai llm (endpoint c) body) = 200 ∧
  json_keys (response_of crewai llm (endpoint c) body) =
    Some {[ "role"; "experience_level"; "tech_stack"; category_field c ]} ∧
  (∃ text, json_field (response_of crewai llm (endpoint c) body) (category_field c)
           = Some (JStr text)) ∧
  (∀ c', c' ≠ c →
         json_field (response_of crewai llm (endpoint c) body) (category_field c') = None).
Proof.
  intros Hvalid.
  destruct (endpoint_run crewai llm c body request Hvalid) as (text & -> & _).
  unfold json_keys, json_field. simpl.
  rewrite envelope_dom, envelope_text.
  repeat split; eauto using envelope_other.
Qed.

Lemma post_response_shape_witness :
  status_code (response_of crewai_up test_llm (endpoint HRQA) body_full) = 200 ∧
  json_keys (response_of crewai_up test_llm (endpoint HRQA) body_full) =
    Some {[ "role"; "experience_level"; "tech_stack"; category_field HRQA ]} ∧
  (∃ text, json_field (response_of crewai_up test_llm (endpoint HRQA) body_full)
             (category_field HRQA) = Some (JStr text)) ∧
  (∀ c', c' ≠ HRQA →
         json_field (response_of crewai_up test_llm (endpoint HRQA) body_full)
           (category_field c') = None).
Proof.
  apply (post_response_shape crewai_up test_llm HRQA body_full
           {| role := "Backend Developer"; experience_level := Some "Fresher";
              tech_stack := Some "Python, SQL" |}).
  reflexivity.
Defined.

(** ** Defaults of the optional fields *)

Lemma or_None (d : string) : Py.or None d = d.
Proof. reflexivity. Qed.

Lemma or_empty (d : string) : Py.or (Some EmptyString) d = d.
Proof. reflexivity. Qed.

Lemma or_nonempty (s d : string) : s ≠ EmptyString → Py.or (Some s) d = s.
Proof. by destruct s. Qed.

Lemma validate_inv (body : option json) (request : JobRoleRequest) :
  JobRoleRequest_validate body = inr request →
  ∃ m, body = Some (JObj m) ∧
       required_str (m !! "role") = inr request.(role) ∧
       optional_str (Some "Fresher") (m !! "experience_level") = inr request.(experience_level) ∧
       optional_str None (m !! "tech_stack") = inr request.(tech_stack).
Proof.
  destruct body as [[| | | | |m]|]; try discriminate.
  unfold JobRoleRequest_validate.
  destruct (required_str _) as [|r] eqn:Hr, (optional_str (Some _) _) as [|e] eqn:He,
           (optional_str None _) as [|t] eqn:Ht; try discriminate.
  intros [= <-]. by exists m.
Qed.

Lemma omits_lookup (key : string) (m : gmap string json) :
  omits key (Some (JObj m)) = true → m !! key = None.
Proof. unfold omits. by destruct (m !! key). Qed.

(** The echoed fields of a 200 response, in terms of the validated
    request. *)
Lemma echoed_fields (crewai : CrewAI) (llm : LLM) (c : category)
    (body : option json) (request : JobRoleRequest) :
  JobRoleRequest_validate body = inr request →
  json_field (response_of crewai llm (endpoint c) body) "role"
    = Some (JStr request.(role)) ∧
  json_field (response_of crewai llm (endpoint c) body) "experience_level"
    = Some (JStr (exp_of request)) ∧
  json_field (response_of crewai llm (endpoint c) body) "tech_stack"
    = Some (JStr (tech_of request)).
Proof.
  intros Hvalid.
  destruct (endpoint_run crewai llm c body request Hvalid) as (text & -> & _).
  unfold json_field. simpl.
  by rewrite envelope_role, envelope_experience_level, envelope_tech_stack.
Qed.

(** C3: a valid body without [experience_level] is answered with
    [experience_level] equal to "Fresher", and a valid body without
    [tech_stack] with [tech_stack] equal to "General", on each of the
    four POST endpoints. *)
Theorem omitted_fields_take_defaults
    (crewai : CrewAI) (llm : LLM) (c : category)
    (body : option json) (request : JobRoleRequest) :
  JobRoleRequest_validate body = inr request →
  status_code (response_of crewai llm (endpoint c) body) = 200 ∧
  (omits "experience_level" body = true →
   json_field (response_of crewai llm (endpoint c) body) "experience_level"
     = Some (JStr "Fresher")) ∧
  (omits "tech_stack" body = true →
   json_field (response_of crewai llm (endpoint c) body) "tech_stack"
     = Some (JStr "General")).
Proof.
  intros Hvalid.
  destruct (echoed_fields crewai llm c body request Hvalid) as (_ & -> & ->).
  destruct (endpoint_run crewai llm c body request Hvalid) as (text & -> & _).
  destruct (validate_inv body request Hvalid) as (m & -> & _ & He & Ht).
  split; [done|]. unfold exp_of, tech_of.
  split; intros Hkey%omits_lookup.
  - rewrite Hkey in He. injection He as <-. done.
  - rewrite Hkey in Ht. injection Ht as <-. done.
Qed.

Lemma omitted_fields_take_defaults_witness :
  status_code (response_of crewai_down test_llm (endpoint Overview) body_role_only) = 200 ∧
  json_field (response_of crewai_down test_llm (endpoint Overview) body_role_only)
    "experience_level" = Some (JStr "Fresher") ∧
  json_field (response_of crewai_down test_llm (endpoint Overview) body_role_only)
    "tech_stack" = Some (JStr "General").
Proof.
  destruct (omitted_fields_take_defaults crewai_down test_llm Overview body_role_only
              {| role := "Data Analyst"; experience_level := Some "Fresher";
                 tech_stack := None |})
    as (Hstatus & Hexp & Htech).
  - reflexivity.
  - split; [exact Hstatus|]. split; [apply Hexp | apply Htech]; reflexivity.
Defined.

(** C9: on each POST endpoint an [experience_level] supplied as [null]
    or as the empty string is answered with "Fresher", a [tech_stack]
    supplied as [null] or as the empty string with "General", and any
    other supplied string is echoed unchanged. *)
Theorem falsy_fields_take_defaults
    (crewai : CrewAI) (llm : LLM) (c : category)
    (body : option json) (request : JobRoleRequest) :
  JobRoleRequest_validate body = inr request →
  (supplies "experience_level" JNull body ∨ supplies "experience_level" (JStr EmptyString) body →
   json_field (response_of crewai llm (endpoint c) body) "experience_level"
     = Some (JStr "Fresher")) ∧
  (supplies "tech_stack" JNull body ∨ supplies "tech_stack" (JStr EmptyString) body →
   json_field (response_of crewai llm (endpoint c) body) "tech_stack"
     = Some (JStr "General")) ∧
  (∀ s, s ≠ EmptyString → supplies "experience_level" (JStr s) body →
        json_field (response_of crewai llm (endpoint c) body) "experience_level"
          = Some (JStr s)) ∧
  (∀ s, s ≠ EmptyString → supplies "tech_stack" (JStr s) body →
        json_field (response_of crewai llm (endpoint c) body) "tech_stack"
          = Some (JStr s)).
Proof.
  intros Hvalid.
  destruct (echoed_fields crewai llm c body request Hvalid) as (_ & -> & ->).
  destruct (validate_inv body request Hvalid) as (m & -> & _ & He & Ht).
  unfold exp_of, tech_of, supplies.
  repeat split.
  - intros [(m' & [= <-] & Hkey)|(m' & [= <-] & Hkey)];
      rewrite Hkey in He; injection He as <-; done.
  - intros [(m' & [= <-] & Hkey)|(m' & [= <-] & Hkey)];
      rewrite Hkey in Ht; injection Ht as <-; done.
  - intros s Hs (m' & [= <-] & Hkey).
    rewrite Hkey in He. injection He as <-. by rewrite or_nonempty.
  - intros s Hs (m' & [= <-] & Hkey).
    rewrite Hkey in Ht. injection Ht as <-. by rewrite or_nonempty.
Qed.

Lemma falsy_fields_take_defaults_witness :
  (json_field (response_of crewai_up test_llm (endpoint HRQA) body_falsy)
     "experience_level" = Some (JStr "Fresher") ∧
   json_field (response_of crewai_up test_llm (endpoint HRQA) body_falsy)
     "tech_stack" = Some (JStr "General")) ∧
  (json_field (response_of crewai_up test_llm (endpoint HRQA) body_senior)
     "experience_level" = Some (JStr "Senior") ∧
   json_field (response_of crewai_up test_llm (endpoint HRQA) body_senior)
     "tech_stack" = Some (JStr "Rust")).
Proof.
  split.
  - destruct (falsy_fields_take_defaults crewai_up test_llm HRQA body_falsy
                {| role := "Nurse"; experience_level := None; tech_stack := Some EmptyString |})
      as (Hexp & Htech & _).
    + reflexivity.
    + split; [apply Hexp; left | apply Htech; right]; eexists; split; reflexivity.
  - destruct (falsy_fields_take_defaults crewai_up test_llm HRQA body_senior
                {| role := "Nurse"; experience_level := Some "Senior";
                   tech_stack := Some "Rust" |})
      as (_ & _ & Hexp & Htech).
    + reflexivity.
    + split; [apply Hexp | apply Htech]; try discriminate; eexists; split; reflexivity.
Defined.

(** ** The error path keeps the envelope *)

(** C10: the keys of the response and the values of [role],
    [experience_level] and [tech_stack] do not depend on what the
    framework did: a run in which generation fails and a run in which it
    succeeds answer the same request with the same four keys and the
    same three echoed values, which are the defaulted fields of the
    request. *)
Theorem error_path_preserves_envelope
    (failing succeeding : CrewAI) (llm : LLM) (c : category)
    (body : option json) (request : JobRoleRequest) :
  JobRoleRequest_validate body = inr request →
  json_keys (response_of failing llm (endpoint c) body) =
    Some {[ "role"; "experience_level"; "tech_stack"; category_field c ]} ∧
  json_keys (response_of failing llm (endpoint c) body) =
    json_keys (response_of succeeding llm (endpoint c) body) ∧
  (∀ key, key ∈ ["role"; "experience_level"; "tech_stack"] →
     json_field (response_of failing llm (endpoint c) body) key =
     json_field (response_of succeeding llm (endpoint c) body) key) ∧
  json_field (response_of failing llm (endpoint c) body) "role"
    = Some (JStr request.(role)) ∧
  json_field (response_of failing llm (endpoint c) body) "experience_level"
    = Some (JStr (Py.or request.(experience_level) "Fresher")) ∧
  json_field (response_of failing llm (endpoint c) body) "tech_stack"
    = Some (JStr (Py.or request.(tech_stack) "General")).
Proof.
  intros Hvalid.
  destruct (echoed_fields failing llm c body request Hvalid) as (Hr1 & He1 & Ht1).
  destruct (echoed_fields succeeding llm c body request Hvalid) as (Hr2 & He2 & Ht2).
  destruct (response_keys failing llm c body request Hvalid) as (_ & Hk1).
  destruct (response_keys succeeding llm c body request Hvalid) as (_ & Hk2).
  split; [done|]. split; [congruence|]. split; [|done].
  intros key Hkey. split_elem Hkey; subst key; congruence.
Qed.

Lemma error_path_preserves_envelope_witness :
  json_keys (response_of crewai_down test_llm (endpoint InterviewTips) body_falsy) =
    json_keys (response_of crewai_up test_llm (endpoint InterviewTips) body_falsy) ∧
  json_field (response_of crewai_down test_llm (endpoint InterviewTips) body_falsy)
    "experience_level" = Some (JStr "Fresher") ∧
  json_field (response_of crewai_up test_llm (endpoint InterviewTips) body_falsy)
    "experience_level" = Some (JStr "Fresher").
Proof.
  destruct (error_path_preserves_envelope crewai_down crewai_up test_llm InterviewTips
              body_falsy
              {| role := "Nurse"; experience_level := None; tech_stack := Some EmptyString |})
    as (_ & Hkeys & Hsame & _ & Hexp & _).
  - reflexivity.
  - split; [exact Hkeys|]. split; [exact Hexp|].
    rewrite <- (Hsame "experience_level"); [exact Hexp|].
    apply list_elem_of_further, list_elem_of_here.
Defined.

Example tips_error_path_differs_only_in_text :
  json_field (response_of crewai_down test_llm POST_generate_interview_tips body_falsy)
    "interview_tips" = Some (JStr "Error generating interview tips: network unreachable") ∧
  json_field (response_of crewai_up test_llm POST_generate_interview_tips body_falsy)
    "interview_tips" = Some (JStr "generated text").
Proof. split; reflexivity. Qed.

(** ** Rejected bodies *)

(** C5: a body without [role] is answered with the validation error 422
    on each POST endpoint, and the request makes no call at all: no agent
    is constructed and [kickoff] is not called. *)
Theorem missing_role_is_rejected_before_any_call
    (crewai : CrewAI) (llm : LLM) (c : category) (body : option json) :
  omits "role" body = true →
  status_code (response_of crewai llm (endpoint c) body) = 422 ∧
  (∃ errors, body_content (response_of crewai llm (endpoint c) body)
             = RequestValidationError errors) ∧
  trace_of crewai llm (endpoint c) body = [] ∧
  (∀ a, CallAgent a ∉ trace_of crewai llm (endpoint c) body) ∧
  (∀ crew, CallKickoff crew ∉ trace_of crewai llm (endpoint c) body).
Proof.
  intros Homits.
  assert (∃ errors, JobRoleRequest_validate body = inl errors) as [errors Herr].
  { destruct body as [[| | | | |m]|]; try (eexists; reflexivity).
    apply omits_lookup in Homits. unfold JobRoleRequest_validate.
    rewrite Homits. simpl.
    destruct (optional_str (Some _) _), (optional_str None _); eexists; reflexivity. }
  unfold response_of, trace_of. rewrite app_request_endpoint.
  unfold post. rewrite Herr. simpl.
  repeat split; eauto; intros ? ?%elem_of_nil; done.
Qed.

Lemma missing_role_is_rejected_before_any_call_witness :
  status_code (response_of crewai_up test_llm (endpoint TechnicalQA) body_no_role) = 422 ∧
  trace_of crewai_up test_llm (endpoint TechnicalQA) body_no_role = [].
Proof.
  destruct (missing_role_is_rejected_before_any_call crewai_up test_llm TechnicalQA
              body_no_role) as (Hstatus & _ & Htrace & _).
  - reflexivity.
  - split; [exact Hstatus | exact Htrace].
Defined.

(** ** Liveness *)

(** C6: [GET /health] answers 200 with the fixed object
    [{"status": "ok"}] and makes no call, whatever the request carries
    and whatever the framework would do. *)
Theorem health_is_fixed (crewai : CrewAI) (llm : LLM) (body : option json) :
  app_request crewai llm GET_health body =
  ({| status_code := 200;
      body_content := JSONResponse (JObj {[ "status" := JStr "ok" ]}) |}, []).
Proof. unfold app_request, health_check, dict. simpl. by rewrite insert_empty. Qed.

(** ** Prompt composition *)

(** The arguments of the [Task(...)] call of a handler are a function of
    the category, the model configuration and the three defaulted
    fields: they do not depend on the framework's behaviour. *)
Lemma task_call_fixed (llm : LLM) (c : category) (role' exp tech : string) :
  ∃ t0,
    description t0 = task_description c role' exp tech ∧
    ∀ crewai request t,
      request.(role) = role' → exp_of request = exp → tech_of request = tech →
      CallTask t ∈ (handler crewai llm c request []).2 → t = t0.
Proof.
  destruct c; eexists; (split; [|intros crewai request t Hrole Hexp Htech]).
  all: try (unfold exp_of in Hexp; unfold tech_of in Htech;
            unfold_handler; rewrite Hrole, Hexp, Htech; case_oracle; simpl;
            intros Hin; split_elem Hin; try discriminate Hin;
            injection Hin as ->; reflexivity).
  all: reflexivity.
Qed.

Ltac find_occurrence :=
  unfold task_description, overview_description, technical_description,
         hr_description, tips_description;
  repeat first [apply occurs_in_head | apply occurs_in_append_r].

Lemma task_description_has_role (c : category) (role' exp tech : string) :
  Py.occurs_in role' (task_description c role' exp tech).
Proof. destruct c; find_occurrence. Qed.

Lemma task_description_has_level_and_stack (c : category) (role' exp tech : string) :
  c ≠ HRQA →
  Py.occurs_in exp (task_description c role' exp tech) ∧
  Py.occurs_in tech (task_description c role' exp tech).
Proof. destruct c; intros Hc; try done; split; find_occurrence. Qed.

(** C7: the instruction string and the expected-output description that
    a handler passes to [Task(...)] are determined by the category and
    the defaulted (role, experience level, technology stack): two runs
    on requests that agree on these pass identical strings, whatever the
    framework does in either run. *)
Theorem prompt_composition_is_deterministic
    (crewai1 crewai2 : CrewAI) (llm : LLM) (c : category)
    (request1 request2 : JobRoleRequest) (t1 t2 : TaskArgs) :
  request1.(role) = request2.(role) →
  exp_of request1 = exp_of request2 →
  tech_of request1 = tech_of request2 →
  CallTask t1 ∈ (handler crewai1 llm c request1 []).2 →
  CallTask t2 ∈ (handler crewai2 llm c request2 []).2 →
  description t1 = description t2 ∧ expected_output t1 = expected_output t2.
Proof.
  intros Hrole Hexp Htech Hin1 Hin2.
  destruct (task_call_fixed llm c request1.(role) (exp_of request1) (tech_of request1))
    as (t0 & _ & Hfixed).
  rewrite (Hfixed crewai1 request1 t1), (Hfixed crewai2 request2 t2); done.
Qed.

Lemma prompt_composition_is_deterministic_witness :
  let request1 := {| role := "Data Analyst"; experience_level := None; tech_stack := None |} in
  let request2 := {| role := "Data Analyst"; experience_level := Some "Fresher";
                     tech_stack := Some "General" |} in
  ∃ t1 t2,
    CallTask t1 ∈ (handler crewai_up test_llm Overview request1 []).2 ∧
    CallTask t2 ∈ (handler crewai_down test_llm Overview request2 []).2 ∧
    description t1 = description t2 ∧ expected_output t1 = expected_output t2.
Proof.
  intros request1 request2.
  assert (CallTask overview_task_args ∈ (handler crewai_up test_llm Overview request1 []).2)
    as Hin1 by (vm_compute; apply list_elem_of_further, list_elem_of_here).
  assert (CallTask overview_task_args ∈ (handler crewai_down test_llm Overview request2 []).2)
    as Hin2 by (vm_compute; apply list_elem_of_further, list_elem_of_here).
  exists overview_task_args, overview_task_args.
  split; [exact Hin1|]. split; [exact Hin2|].
  apply (prompt_composition_is_deterministic crewai_up crewai_down test_llm Overview
           request1 request2 overview_task_args overview_task_args);
    [reflexivity | reflexivity | reflexivity | exact Hin1 | exact Hin2].
Defined.

(** C4, as the code has it: the instruction string that a handler
    passes to [Task(...)] contains the role for every category, and the
    defaulted experience level and technology stack for the overview,
    technical Q&A and interview tips categories.  The HR Q&A instruction
    is built from the role alone. *)
Theorem prompt_interpolates_request_fields
    (crewai : CrewAI) (llm : LLM) (c : category)
    (request : JobRoleRequest) (t : TaskArgs) :
  CallTask t ∈ (handler crewai llm c request []).2 →
  Py.occurs_in request.(role) (description t) ∧
  (c ≠ HRQA →
   Py.occurs_in (exp_of request) (description t) ∧
   Py.occurs_in (tech_of request) (description t)) ∧
  (c = HRQA → description t = hr_description request.(role)).
Proof.
  intros Hin.
  destruct (task_call_fixed llm c request.(role) (exp_of request) (tech_of request))
    as (t0 & Hdescr & Hfixed).
  rewrite (Hfixed crewai request t) by done. rewrite Hdescr.
  split; [apply task_description_has_role|].
  split; [apply task_description_has_level_and_stack|].
  by intros ->.
Qed.

Lemma prompt_interpolates_request_fields_witness :
  Py.occurs_in "Data Analyst" (description overview_task_args) ∧
  Py.occurs_in "Fresher" (description overview_task_args) ∧
  Py.occurs_in "General" (description overview_task_args).
Proof.
  destruct (prompt_interpolates_request_fields crewai_down test_llm Overview
              {| role := "Data Analyst"; experience_level := None; tech_stack := None |}
              overview_task_args)
    as (Hrole & Hrest & _).
  - vm_compute. apply list_elem_of_further, list_elem_of_here.
  - split; [exact Hrole|]. apply Hrest. discriminate.
Defined.

(** The HR Q&A handler, called with experience level "Senior" and
    technology stack "Rust", passes an instruction string in which
    neither occurs. *)
Lemma hr_prompt_lacks_level_and_stack :
  let request := {| role := "Nurse"; experience_level := Some "Senior";
                    tech_stack := Some "Rust" |} in
  ∃ t, CallTask t ∈ (handler crewai_up test_llm HRQA request []).2 ∧
       ¬ Py.occurs_in (exp_of request) (description t) ∧
       ¬ Py.occurs_in (tech_of request) (description t).
Proof.
  intros request.
  exists hr_task_args.
  split; [vm_compute; apply list_elem_of_further, list_elem_of_here|].
  split; rewrite <- contains_spec; vm_compute; discriminate.
Qed.

(** ** Start-up *)

(** C8: the credential check reads [GEMINI_API_KEY] with [os.getenv]
    once [load_dotenv()] has run.  If the variable is unset there, module
    initialization raises [ValueError] and the service does not start;
    if it is set, start-up passes the check and the model configuration
    is built with its value.  Module initialization raises exactly when
    the variable is unset. *)
Theorem unset_api_key_is_fatal_at_startup (environ dotenv : gmap string string) :
  (getenv (load_dotenv dotenv environ) "GEMINI_API_KEY" = None →
   startup environ dotenv =
     Raises (Exn "ValueError" "GEMINI_API_KEY is not set. Please add it to your .env file.")) ∧
  (∀ key, getenv (load_dotenv dotenv environ) "GEMINI_API_KEY" = Some key →
     startup environ dotenv =
       Returns {| llm_model := "gemini/gemini-2.5-pro"; llm_api_key := key;
                  llm_temperature := 0.4%Q |}) ∧
  ((∃ e, startup environ dotenv = Raises e) ↔
   getenv (load_dotenv dotenv environ) "GEMINI_API_KEY" = None).
Proof.
  unfold startup, GEMINI_API_KEY.
  destruct (getenv (load_dotenv dotenv environ) "GEMINI_API_KEY") as [key|].
  - split; [discriminate|]. split; [by intros ? [= <-]|].
    split; [intros [e He]; discriminate He | discriminate].
  - split; [done|]. split; [discriminate|]. split; [done | eauto].
Qed.

Lemma unset_api_key_is_fatal_at_startup_witness :
  startup ∅ ∅ =
    Raises (Exn "ValueError" "GEMINI_API_KEY is not set. Please add it to your .env file.") ∧
  startup {[ "PATH" := "/usr/bin"; "GEMINI_API_KEY" := "secret" ]} ∅ =
    Returns {| llm_model := "gemini/gemini-2.5-pro"; llm_api_key := "secret";
               llm_temperature := 0.4%Q |}.
Proof.
  split.
  - destruct (unset_api_key_is_fatal_at_startup ∅ ∅) as (Hunset & _).
    apply Hunset. reflexivity.
  - destruct (unset_api_key_is_fatal_at_startup
                {[ "PATH" := "/usr/bin"; "GEMINI_API_KEY" := "secret" ]} ∅)
      as (_ & Hset & _).
    apply Hset. reflexivity.
Defined.

(** In terms of where the variable comes from: [load_dotenv()] fills a
    variable that the process environment leaves unset from the [.env]
    file.  The check fails when neither sets [GEMINI_API_KEY]; the
    process environment's value is used when it sets one, and the
    file's value otherwise. *)
Theorem startup_credential_check (environ dotenv : gmap string string) :
  (environ !! "GEMINI_API_KEY" = None → dotenv !! "GEMINI_API_KEY" = None →
   startup environ dotenv =
     Raises (Exn "ValueError" "GEMINI_API_KEY is not set. Please add it to your .env file.")) ∧
  (∀ key, environ !! "GEMINI_API_KEY" = Some key →
     ∃ llm, startup environ dotenv = Returns llm ∧ llm_api_key llm = key) ∧
  (∀ key, environ !! "GEMINI_API_KEY" = None → dotenv !! "GEMINI_API_KEY" = Some key →
     ∃ llm, startup environ dotenv = Returns llm ∧ llm_api_key llm = key).
Proof.
  unfold startup, GEMINI_API_KEY, getenv, load_dotenv.
  split; [|split].
  - intros Henv Hfile. by rewrite lookup_union_r, Hfile.
  - intros key Henv. rewrite (lookup_union_Some_l _ _ _ _ Henv). eauto.
  - intros key Henv Hfile. rewrite lookup_union_r, Hfile by done. eauto.
Qed.

Lemma startup_credential_check_witness :
  startup ∅ ∅ =
    Raises (Exn "ValueError" "GEMINI_API_KEY is not set. Please add it to your .env file.") ∧
  (∃ llm, startup {[ "GEMINI_API_KEY" := "from-env" ]} {[ "GEMINI_API_KEY" := "from-file" ]}
          = Returns llm ∧ llm_api_key llm = "from-env").
Proof.
  split.
  - destruct (startup_credential_check ∅ ∅) as (Hunset & _).
    apply Hunset; reflexivity.
  - destruct (startup_credential_check {[ "GEMINI_API_KEY" := "from-env" ]}
                {[ "GEMINI_API_KEY" := "from-file" ]}) as (_ & Hset & _).
    apply Hset. reflexivity.
Defined.

(** With [GEMINI_API_KEY] unset in the process environment and supplied
    by the [.env] file, module initialization does not raise. *)
Lemma dotenv_key_passes_credential_check :
  let environ : gmap string string := ∅ in
  let dotenv : gmap string string := {[ "GEMINI_API_KEY" := "from-file" ]} in
  getenv environ "GEMINI_API_KEY" = None ∧
  startup environ dotenv =
    Returns {| llm_model := "gemini/gemini-2.5-pro"; llm_api_key := "from-file";
               llm_temperature := 0.4%Q |} ∧
  ¬ ∃ e, startup environ dotenv = Raises e.
Proof.
  intros environ dotenv.
  split; [reflexivity|].
  assert (startup environ dotenv =
    Returns {| llm_model := "gemini/gemini-2.5-pro"; llm_api_key := "from-file";
               llm_temperature := 0.4%Q |}) as Hstart by reflexivity.
  split; [exact Hstart|].
  intros [e He]. rewrite Hstart in He. discriminate He.
Qed.

(** * Further properties of the handlers *)

(** ** The shape of a run *)

(** The agent of a category is the same in every run, and every run of
    the category's handler has one of the five shapes over that agent
    and the task built from the defaulted fields of the request. *)
Lemma handler_trace (llm : LLM) (c : category) :
  ∃ a,
    (agent_role a = agent_role_of c ∧ agent_llm a = llm ∧ agent_verbose a = true) ∧
    ∀ crewai request,
    ∃ t,
      run_shape crewai c a t (handler crewai llm c request []).2 ∧
      agent t = a ∧
      description t =
        task_description c request.(role) (exp_of request) (tech_of request).
Proof.
  destruct c; eexists; (split; [|intros crewai request; eexists; unfold_handler; case_oracle]).
  all: try (split; [simpl; econstructor; eassumption|]).
  all: repeat split; reflexivity.
Qed.

Lemma trace_of_valid (crewai : CrewAI) (llm : LLM) (c : category)
    (body : option json) (request : JobRoleRequest) :
  JobRoleRequest_validate body = inr request →
  trace_of crewai llm (endpoint c) body = (handler crewai llm c request []).2.
Proof.
  intros Hvalid. unfold trace_of. rewrite app_request_endpoint.
  unfold post. rewrite Hvalid.
  by destruct (handler crewai llm c request []) as [[d|e] tr].
Qed.

Lemma post_invalid (crewai : CrewAI) (llm : LLM) (c : category)
    (body : option json) (errors : list (string * field_error)) :
  JobRoleRequest_validate body = inl errors →
  app_request crewai llm (endpoint c) body =
  ({| status_code := 422; body_content := RequestValidationError errors |}, []).
Proof.
  intros Herr. rewrite app_request_endpoint. unfold post. by rewrite Herr.
Qed.

(** A request either makes no call at all or runs one handler once. *)
Lemma trace_of_cases (crewai : CrewAI) (llm : LLM) (r : route) (body : option json) :
  trace_of crewai llm r body = [] ∨
  ∃ c request, trace_of crewai llm r body = (handler crewai llm c request []).2.
Proof.
  assert (∀ c, trace_of crewai llm (endpoint c) body = [] ∨
               ∃ c' request, trace_of crewai llm (endpoint c) body
                             = (handler crewai llm c' request []).2) as Hpost.
  { intros c. destruct (JobRoleRequest_validate body) as [errors|request] eqn:Hvalid.
    - left. unfold trace_of. by rewrite (post_invalid _ _ _ _ _ Hvalid).
    - right. exists c, request. by apply trace_of_valid. }
  destruct r; [by left | by left | ..].
  - apply (Hpost Overview).
  - apply (Hpost TechnicalQA).
  - apply (Hpost HRQA).
  - apply (Hpost InterviewTips).
Qed.

Ltac same_exn :=
  match goal with
  | H1 : ?x = Some ?e1, H2 : ?x = Some ?e2 |- _ =>
      rewrite H1 in H2; injection H2 as <-
  | H1 : ?x = Raises ?e1, H2 : ?x = Raises ?e2 |- _ =>
      rewrite H1 in H2; injection H2 as <-
  end.

Ltac raised_in Hnone :=
  exfalso;
  match goal with
  | Hr : Agent_init _ ?a = Some ?e |- _ => apply (Hnone (CallAgent a) e)
  | Hr : Task_init _ ?a = Some ?e |- _ => apply (Hnone (CallTask a) e)
  | Hr : Crew_init _ ?a = Some ?e |- _ => apply (Hnone (CallCrew a) e)
  | Hr : Crew_kickoff _ ?a = Raises ?e |- _ => apply (Hnone (CallKickoff a) e)
  end; [repeat constructor | assumption].

(** The calls that a shape contains. *)
Lemma run_shape_agent crewai c a t tr x :
  run_shape crewai c a t tr → CallAgent x ∈ tr → x = a.
Proof.
  intros Hshape Hin. destruct Hshape; unfold failure_log in Hin;
    split_elem Hin; try discriminate Hin; by injection Hin.
Qed.

Lemma run_shape_kickoff crewai c a t tr crew :
  run_shape crewai c a t tr → CallKickoff crew ∈ tr →
  crew = crew_of a t ∧ Agent_init crewai a = None ∧ Task_init crewai t = None ∧
  Crew_init crewai crew = None.
Proof.
  intros Hshape Hin. destruct Hshape; unfold failure_log in Hin;
    split_elem Hin; try discriminate Hin; injection Hin as ->; done.
Qed.

Lemma run_shape_kickoff_calls crewai c a t tr :
  run_shape crewai c a t tr → length (kickoff_calls tr) ≤ 1.
Proof. intros Hshape. destruct Hshape; simpl; lia. Qed.

(** ** One model call, in a fixed order, without retry *)

(** X2: When no framework call raises, a handler makes exactly four calls,
    in the order Agent, Task, Crew, kickoff, and logs nothing.  The crew
    holds that one agent and that one task, the task is given to that
    agent, the agent carries the configured model, and the task's
    instruction is the category's template filled with the defaulted
    fields of the request. *)
Theorem successful_run_makes_four_calls_in_order
    (crewai : CrewAI) (llm : LLM) (c : category) (request : JobRoleRequest) :
  (∀ ev e, ev ∈ (handler crewai llm c request []).2 → ¬ raised_by crewai ev e) →
  ∃ a t,
    (handler crewai llm c request []).2 =
      [CallAgent a; CallTask t; CallCrew (crew_of a t); CallKickoff (crew_of a t)] ∧
    agent t = a ∧ agent_llm a = llm ∧
    description t = task_description c request.(role) (exp_of request) (tech_of request).
Proof.
  intros Hnone.
  destruct (handler_trace llm c) as (a & (_ & Hllm & _) & Hruns).
  destruct (Hruns crewai request) as (t & Hshape & Hagent & Hdescr).
  exists a, t.
  destruct Hshape; [done | raised_in Hnone ..].
Qed.

Lemma successful_run_makes_four_calls_in_order_witness :
  let request := {| role := "Data Analyst"; experience_level := None; tech_stack := None |} in
  ∃ a t,
    (handler crewai_up test_llm Overview request []).2 =
      [CallAgent a; CallTask t; CallCrew (crew_of a t); CallKickoff (crew_of a t)] ∧
    agent t = a ∧ agent_llm a = test_llm ∧
    description t = task_description Overview request.(role) (exp_of request) (tech_of request).
Proof.
  intros request.
  apply (successful_run_makes_four_calls_in_order crewai_up test_llm Overview request).
  intros ev e _ Hraised. destruct ev; simpl in Hraised; try discriminate Hraised; exact Hraised.
Defined.

(** X3: When a framework call raises, it is the last call of the run: the
    calls before it all returned, and after it come only the printed
    line "<label> <text of the exception>" and the traceback.  Nothing
    is retried. *)
Theorem failed_run_stops_at_the_raising_call
    (crewai : CrewAI) (llm : LLM) (c : category) (request : JobRoleRequest)
    (ev : event) (e : exn) :
  ev ∈ (handler crewai llm c request []).2 →
  raised_by crewai ev e →
  ∃ before,
    (handler crewai llm c request []).2 = before ++ ev :: failure_log c e ∧
    ∀ ev', ev' ∈ before → is_call ev' = true ∧ ∀ e', ¬ raised_by crewai ev' e'.
Proof.
  intros Hin Hraised.
  destruct (handler_trace llm c) as (a & _ & Hruns).
  destruct (Hruns crewai request) as (t & Hshape & _).
  destruct Hshape; unfold failure_log in Hin; split_elem Hin; subst ev;
    simpl in Hraised; try contradiction; try congruence; same_exn.
  - exists []. split; [done|]. intros ev' []%elem_of_nil.
  - exists [CallAgent a]. split; [done|].
    intros ev' Hin'. split_elem Hin'; subst ev'. split; [done|]. simpl. congruence.
  - exists [CallAgent a; CallTask t]. split; [done|].
    intros ev' Hin'. split_elem Hin'; subst ev'; (split; [done|]); simpl; congruence.
  - exists [CallAgent a; CallTask t; CallCrew (crew_of a t)]. split; [done|].
    intros ev' Hin'. split_elem Hin'; subst ev'; (split; [done|]); simpl; congruence.
Qed.

Lemma failed_run_stops_at_the_raising_call_witness :
  let request := {| role := "Data Analyst"; experience_level := None; tech_stack := None |} in
  ∃ before,
    (handler crewai_no_task test_llm Overview request []).2 =
      before ++ CallTask overview_task_args ::
                failure_log Overview (Exn "ValidationError" "bad task") ∧
    ∀ ev', ev' ∈ before → is_call ev' = true ∧ ∀ e', ¬ raised_by crewai_no_task ev' e'.
Proof.
  intros request.
  apply (failed_run_stops_at_the_raising_call crewai_no_task test_llm Overview request
           (CallTask overview_task_args) (Exn "ValidationError" "bad task")).
  - vm_compute. apply list_elem_of_further, list_elem_of_here.
  - reflexivity.
Defined.

(** X4: Whatever the route and the body, a request calls [kickoff] at most
    once, and only on the crew of an agent and a task whose construction,
    like the crew's, did not raise. *)
Theorem model_is_called_at_most_once
    (crewai : CrewAI) (llm : LLM) (r : route) (body : option json) :
  length (kickoff_calls (trace_of crewai llm r body)) ≤ 1 ∧
  ∀ crew, CallKickoff crew ∈ trace_of crewai llm r body →
    ∃ a t, crew = crew_of a t ∧ Agent_init crewai a = None ∧
           Task_init crewai t = None ∧ Crew_init crewai crew = None.
Proof.
  destruct (trace_of_cases crewai llm r body) as [->|(c & request & ->)].
  - split; [simpl; lia|]. intros crew []%elem_of_nil.
  - destruct (handler_trace llm c) as (a & _ & Hruns).
    destruct (Hruns crewai request) as (t & Hshape & _).
    split; [by eapply run_shape_kickoff_calls|].
    intros crew Hin. exists a, t. by eapply run_shape_kickoff.
Qed.

(** ** What the caller receives *)

(** X1: When no framework call raises, the category field of the response
    is the text of the output that [kickoff] returned, unchanged. *)
Theorem successful_generation_returns_model_text
    (crewai : CrewAI) (llm : LLM) (c : category)
    (body : option json) (request : JobRoleRequest) :
  JobRoleRequest_validate body = inr request →
  (∀ ev e, ev ∈ trace_of crewai llm (endpoint c) body → ¬ raised_by crewai ev e) →
  ∃ crew result,
    CallKickoff crew ∈ trace_of crewai llm (endpoint c) body ∧
    Crew_kickoff crewai crew = Returns result ∧
    json_field (response_of crewai llm (endpoint c) body) (category_field c)
      = Some (JStr (raw result)).
Proof.
  intros Hvalid Hnone.
  destruct (endpoint_run crewai llm c body request Hvalid) as (text & Hresp & _ & Hok).
  destruct (Hok Hnone) as (crew & result & Hin & Hkick & ->).
  exists crew, result. rewrite Hresp. unfold json_field. simpl.
  by rewrite envelope_text.
Qed.

Lemma successful_generation_returns_model_text_witness :
  ∃ crew result,
    CallKickoff crew ∈ trace_of crewai_up test_llm (endpoint HRQA) body_senior ∧
    Crew_kickoff crewai_up crew = Returns result ∧
    json_field (response_of crewai_up test_llm (endpoint HRQA) body_senior)
      (category_field HRQA) = Some (JStr (raw result)).
Proof.
  apply (successful_generation_returns_model_text crewai_up test_llm HRQA body_senior
           {| role := "Nurse"; experience_level := Some "Senior";
              tech_stack := Some "Rust" |}).
  - reflexivity.
  - intros ev e _ Hraised. destruct ev; simpl in Hraised; try discriminate Hraised; exact Hraised.
Defined.

(** X5: A POST endpoint answers 200 or 422 and nothing else: 200 when the
    body validates, 422 with the validation errors and without any call
    when it does not.  No behaviour of the framework leads to a 500. *)
Theorem post_status_is_200_or_422
    (crewai : CrewAI) (llm : LLM) (c : category) (body : option json) :
  (∃ request, JobRoleRequest_validate body = inr request ∧
     status_code (response_of crewai llm (endpoint c) body) = 200) ∨
  (∃ errors, JobRoleRequest_validate body = inl errors ∧
     response_of crewai llm (endpoint c) body =
       {| status_code := 422; body_content := RequestValidationError errors |} ∧
     trace_of crewai llm (endpoint c) body = []).
Proof.
  destruct (JobRoleRequest_validate body) as [errors|request] eqn:Hvalid.
  - right. exists errors. unfold response_of, trace_of.
    by rewrite (post_invalid _ _ _ _ _ Hvalid).
  - left. exists request. split; [done|].
    by destruct (endpoint_run crewai llm c body request Hvalid) as (text & -> & _).
Qed.

(** X6: The role is echoed exactly as supplied: no default and no other
    replacement applies to it, so an empty role is answered with 200 and
    an empty [role]. *)
Theorem role_is_echoed_verbatim
    (crewai : CrewAI) (llm : LLM) (c : category)
    (body : option json) (request : JobRoleRequest) (s : string) :
  JobRoleRequest_validate body = inr request →
  supplies "role" (JStr s) body →
  status_code (response_of crewai llm (endpoint c) body) = 200 ∧
  json_field (response_of crewai llm (endpoint c) body) "role" = Some (JStr s).
Proof.
  intros Hvalid (m & -> & Hkey).
  destruct (echoed_fields crewai llm c _ request Hvalid) as (-> & _).
  destruct (response_keys crewai llm c _ request Hvalid) as (-> & _).
  destruct (validate_inv _ request Hvalid) as (m' & [= <-] & Hrole & _).
  rewrite Hkey in Hrole. by injection Hrole as <-.
Qed.

Lemma role_is_echoed_verbatim_witness :
  status_code (response_of crewai_up test_llm (endpoint Overview) body_empty_role) = 200 ∧
  json_field (response_of crewai_up test_llm (endpoint Overview) body_empty_role) "role"
    = Some (JStr EmptyString).
Proof.
  apply (role_is_echoed_verbatim crewai_up test_llm Overview body_empty_role
           {| role := EmptyString; experience_level := Some "Fresher"; tech_stack := None |}).
  - reflexivity.
  - eexists. split; reflexivity.
Defined.

Lemma or_default_nonempty (x : option string) (d : string) :
  d ≠ EmptyString → Py.or x d ≠ EmptyString.
Proof. intros Hd. by destruct x as [[|a s]|]. Qed.

(** X7: The echoed [experience_level] and [tech_stack] of a 200 response are
    never empty, whatever the body supplied for them. *)
Theorem echoed_level_and_stack_are_never_empty
    (crewai : CrewAI) (llm : LLM) (c : category)
    (body : option json) (request : JobRoleRequest) :
  JobRoleRequest_validate body = inr request →
  ∃ exp tech,
    json_field (response_of crewai llm (endpoint c) body) "experience_level"
      = Some (JStr exp) ∧
    json_field (response_of crewai llm (endpoint c) body) "tech_stack"
      = Some (JStr tech) ∧
    exp ≠ EmptyString ∧ tech ≠ EmptyString.
Proof.
  intros Hvalid.
  destruct (echoed_fields crewai llm c body request Hvalid) as (_ & -> & ->).
  exists (exp_of request), (tech_of request).
  repeat split; by apply or_default_nonempty.
Qed.

Lemma echoed_level_and_stack_are_never_empty_witness :
  ∃ exp tech,
    json_field (response_of crewai_down test_llm (endpoint TechnicalQA) body_falsy)
      "experience_level" = Some (JStr exp) ∧
    json_field (response_of crewai_down test_llm (endpoint TechnicalQA) body_falsy)
      "tech_stack" = Some (JStr tech) ∧
    exp ≠ EmptyString ∧ tech ≠ EmptyString.
Proof.
  apply (echoed_level_and_stack_are_never_empty crewai_down test_llm TechnicalQA body_falsy
           {| role := "Nurse"; experience_level := None; tech_stack := Some EmptyString |}).
  reflexivity.
Defined.

(** X8: A failed generation cannot be told from a successful one by the
    shape of the response: for every run in which a call raised there is
    a framework behaviour in which no call raises and the model answers
    with the error text, and it yields the very same response. *)
Theorem failure_is_visible_in_the_text_only
    (crewai : CrewAI) (llm : LLM) (c : category)
    (body : option json) (request : JobRoleRequest) (ev : event) (e : exn) :
  JobRoleRequest_validate body = inr request →
  ev ∈ trace_of crewai llm (endpoint c) body →
  raised_by crewai ev e →
  (∀ ev' e', ¬ raised_by (crewai_answering (error_text c e)) ev' e') ∧
  response_of (crewai_answering (error_text c e)) llm (endpoint c) body =
  response_of crewai llm (endpoint c) body.
Proof.
  intros Hvalid Hin Hraised.
  assert (∀ ev' e', ¬ raised_by (crewai_answering (error_text c e)) ev' e') as Hnone.
  { intros ev' e' Hr. destruct ev'; simpl in Hr; try discriminate Hr; exact Hr. }
  split; [exact Hnone|].
  destruct (endpoint_run crewai llm c body request Hvalid) as (text & -> & Herr & _).
  rewrite (Herr ev e Hin Hraised).
  destruct (endpoint_run (crewai_answering (error_text c e)) llm c body request Hvalid)
    as (text' & -> & _ & Hok).
  destruct Hok as (crew & result & _ & Hkick & ->); [by intros ev' e' _|].
  simpl in Hkick. by injection Hkick as <-.
Qed.

Lemma failure_is_visible_in_the_text_only_witness :
  response_of
    (crewai_answering (error_text Overview (Exn "ValidationError" "bad agent")))
    test_llm (endpoint Overview) body_role_only =
  response_of crewai_no_agent test_llm (endpoint Overview) body_role_only.
Proof.
  apply (failure_is_visible_in_the_text_only crewai_no_agent test_llm Overview
           body_role_only
           {| role := "Data Analyst"; experience_level := Some "Fresher"; tech_stack := None |}
           (CallAgent career_agent_args) (Exn "ValidationError" "bad agent")).
  - reflexivity.
  - vm_compute. apply list_elem_of_here.
  - reflexivity.
Defined.

(** ** What a handler reads from the request *)

(** X9: A handler uses the request only through the role and the defaulted
    experience level and technology stack: two requests that agree on
    these get the same result and cause the same calls and log output.
    Omitting a field, sending [null], sending the empty string and
    sending the default itself are the same request to the handler. *)
Theorem handler_reads_defaulted_fields_only
    (crewai : CrewAI) (llm : LLM) (c : category) (request1 request2 : JobRoleRequest) :
  request1.(role) = request2.(role) →
  exp_of request1 = exp_of request2 →
  tech_of request1 = tech_of request2 →
  handler crewai llm c request1 [] = handler crewai llm c request2 [].
Proof.
  unfold exp_of, tech_of. intros Hrole Hexp Htech.
  destruct c; unfold handler, generate_overview, generate_technical_qa,
    generate_hr_qa, generate_interview_tips; cbv zeta;
    rewrite Hrole, Hexp, Htech; reflexivity.
Qed.

Lemma handler_reads_defaulted_fields_only_witness :
  handler crewai_down test_llm InterviewTips
    {| role := "Nurse"; experience_level := None; tech_stack := Some EmptyString |} [] =
  handler crewai_down test_llm InterviewTips
    {| role := "Nurse"; experience_level := Some "Fresher"; tech_stack := Some "General" |} [].
Proof.
  apply (handler_reads_defaulted_fields_only crewai_down test_llm InterviewTips);
    reflexivity.
Defined.

(** The last item of a dict literal is found under its key. *)
Lemma dict_last (items : list (string * json)) (k : string) (v : json) :
  dict (items ++ [(k, v)]) !! k = Some v.
Proof. unfold dict. rewrite foldl_app. simpl. apply lookup_insert_eq. Qed.

(** X10: The HR Q&A handler sends nothing but the role to the framework: two
    requests with the same role cause the same calls and log output and
    receive the same [hr_qa] text, whatever their experience level and
    technology stack. *)
Theorem hr_generation_reads_the_role_only
    (crewai : CrewAI) (llm : LLM) (request1 request2 : JobRoleRequest) :
  request1.(role) = request2.(role) →
  (generate_hr_qa crewai llm request1 []).2 = (generate_hr_qa crewai llm request2 []).2 ∧
  ∃ text d1 d2,
    (generate_hr_qa crewai llm request1 []).1 = Returns d1 ∧
    (generate_hr_qa crewai llm request2 []).1 = Returns d2 ∧
    d1 !! "hr_qa" = Some (JStr text) ∧ d2 !! "hr_qa" = Some (JStr text).
Proof.
  intros Hrole. unfold_handler. rewrite Hrole. case_oracle.
  all: split; [reflexivity|]; do 3 eexists; split; [reflexivity|]; split; [reflexivity|].
  all: split; apply (dict_last [_; _; _]).
Qed.

Lemma hr_generation_reads_the_role_only_witness :
  let request1 := {| role := "Nurse"; experience_level := Some "Senior";
                     tech_stack := Some "Rust" |} in
  let request2 := {| role := "Nurse"; experience_level := None; tech_stack := None |} in
  (generate_hr_qa crewai_up test_llm request1 []).2 =
  (generate_hr_qa crewai_up test_llm request2 []).2 ∧
  ∃ text d1 d2,
    (generate_hr_qa crewai_up test_llm request1 []).1 = Returns d1 ∧
    (generate_hr_qa crewai_up test_llm request2 []).1 = Returns d2 ∧
    d1 !! "hr_qa" = Some (JStr text) ∧ d2 !! "hr_qa" = Some (JStr text).
Proof.
  intros request1 request2.
  apply (hr_generation_reads_the_role_only crewai_up test_llm request1 request2).
  reflexivity.
Defined.

(** ** The agents *)

Lemma agent_role_of_inj : Inj (=) (=) agent_role_of.
Proof. intros [] [] H; first [reflexivity | discriminate H]. Qed.

(** X11: Each category has one agent: every run of its handler constructs the
    same agent, whatever the request and the framework's behaviour.  The
    agent carries the configured model, and its role belongs to no other
    category. *)
Theorem each_category_has_one_agent
    (crewai1 crewai2 : CrewAI) (llm : LLM) (c : category)
    (request1 request2 : JobRoleRequest) (a1 a2 : AgentArgs) :
  CallAgent a1 ∈ (handler crewai1 llm c request1 []).2 →
  CallAgent a2 ∈ (handler crewai2 llm c request2 []).2 →
  a1 = a2 ∧ agent_llm a1 = llm ∧ agent_role a1 = agent_role_of c ∧
  ∀ c', agent_role_of c' = agent_role a1 → c' = c.
Proof.
  intros Hin1 Hin2.
  destruct (handler_trace llm c) as (a & (Hrole & Hllm & _) & Hruns).
  destruct (Hruns crewai1 request1) as (t1 & Hshape1 & _).
  destruct (Hruns crewai2 request2) as (t2 & Hshape2 & _).
  rewrite (run_shape_agent _ _ _ _ _ _ Hshape1 Hin1).
  rewrite (run_shape_agent _ _ _ _ _ _ Hshape2 Hin2).
  repeat split; [done..|].
  intros c' Hc'. apply agent_role_of_inj. congruence.
Qed.

Lemma each_category_has_one_agent_witness :
  career_agent_args = career_agent_args ∧
  agent_llm career_agent_args = test_llm ∧
  agent_role career_agent_args = agent_role_of Overview ∧
  ∀ c', agent_role_of c' = agent_role career_agent_args → c' = Overview.
Proof.
  apply (each_category_has_one_agent crewai_up crewai_no_agent test_llm Overview
           {| role := "Data Analyst"; experience_level := None; tech_stack := None |}
           {| role := "Nurse"; experience_level := Some "Senior"; tech_stack := Some "Rust" |}).
  - vm_compute. apply list_elem_of_here.
  - vm_compute. apply list_elem_of_here.
Defined.

(** ** Undeclared keys *)

(** X12: A key that [JobRoleRequest] does not declare is ignored: adding it
    to a body changes neither the response nor the calls, on any
    route. *)
Theorem undeclared_keys_are_ignored
    (crewai : CrewAI) (llm : LLM) (r : route)
    (m : gmap string json) (key : string) (v : json) :
  key ≠ "role" → key ≠ "experience_level" → key ≠ "tech_stack" →
  app_request crewai llm r (Some (JObj (<[key := v]> m))) =
  app_request crewai llm r (Some (JObj m)).
Proof.
  intros Hrole Hexp Htech.
  assert (JobRoleRequest_validate (Some (JObj (<[key := v]> m))) =
          JobRoleRequest_validate (Some (JObj m))) as Hvalid.
  { unfold JobRoleRequest_validate. by rewrite !lookup_insert_ne. }
  destruct r; unfold app_request, post; by rewrite ?Hvalid.
Qed.

Lemma undeclared_keys_are_ignored_witness :
  app_request crewai_up test_llm POST_generate_overview
    (Some (JObj (<["company" := JStr "Acme"]> {[ "role" := JStr "Data Analyst" ]}))) =
  app_request crewai_up test_llm POST_generate_overview
    (Some (JObj {[ "role" := JStr "Data Analyst" ]})).
Proof.
  apply (undeclared_keys_are_ignored crewai_up test_llm POST_generate_overview
           {[ "role" := JStr "Data Analyst" ]} "company" (JStr "Acme"));
    discriminate.
Defined.

(** ** Generation failures, seen from the framework *)

(** Every run of a handler has one of the five shapes over the
    category's agent arguments and the task arguments of the request. *)
Lemma handler_shape (crewai : CrewAI) (llm : LLM) (c : category)
    (request : JobRoleRequest) :
  run_shape crewai c (agent_args llm c) (task_args llm c request)
    (handler crewai llm c request []).2.
Proof.
  destruct c; unfold_handler; case_oracle; simpl; econstructor; eassumption.
Qed.

(** A generation that raises leaves the raising call in the trace. *)
Lemma generation_raises_in_trace crewai c a t tr e :
  run_shape crewai c a t tr →
  generation_raises crewai a t e →
  ∃ ev, ev ∈ tr ∧ raised_by crewai ev e.
Proof.
  intros Hshape Hraises.
  destruct Hraises; destruct Hshape; try congruence.
  - exists (CallAgent a). split; [repeat constructor | done].
  - exists (CallTask t). split; [repeat constructor | done].
  - exists (CallCrew (crew_of a t)). split; [repeat constructor | done].
  - exists (CallKickoff (crew_of a t)). split; [repeat constructor | done].
Qed.

(** C1: for every valid request, when the model invocation raises an
    exception (the agent constructor, the task constructor, the crew
    constructor or [kickoff], called with the arguments of the
    endpoint's category and of the request), the endpoint answers 200
    and the category field is the string "Error generating <category>: "
    followed by the text of the exception.  No exception of
    construction or invocation leads to another status. *)
Theorem generation_failure_yields_200_with_error_text
    (crewai : CrewAI) (llm : LLM) (c : category)
    (body : option json) (request : JobRoleRequest) (e : exn) :
  JobRoleRequest_validate body = inr request →
  generation_raises crewai (agent_args llm c) (task_args llm c request) e →
  status_code (response_of crewai llm (endpoint c) body) = 200 ∧
  ∃ text,
    json_field (response_of crewai llm (endpoint c) body) (category_field c)
      = Some (JStr text) ∧
    text = "Error generating " +:+ category_name c +:+ ": " +:+ exn_str e ∧
    Py.startswith ("Error generating " +:+ category_name c +:+ ": ") text = true.
Proof.
  intros Hvalid Hraises.
  destruct (generation_raises_in_trace _ _ _ _ _ _
              (handler_shape crewai llm c request) Hraises) as (ev & Hin & Hraised).
  rewrite <- (trace_of_valid crewai llm c body request Hvalid) in Hin.
  destruct (endpoint_run crewai llm c body request Hvalid) as (text & Hresp & Herr & _).
  rewrite Hresp. split; [done|]. exists text.
  unfold json_field. simpl. rewrite envelope_text. split; [done|].
  rewrite (Herr ev e Hin Hraised). split; [done|].
  unfold error_text. rewrite <- !append_assoc. apply startswith_append.
Qed.

Lemma generation_failure_yields_200_with_error_text_witness :
  status_code (response_of crewai_down test_llm (endpoint TechnicalQA) body_full) = 200 ∧
  ∃ text,
    json_field (response_of crewai_down test_llm (endpoint TechnicalQA) body_full)
      (category_field TechnicalQA) = Some (JStr text) ∧
    text = "Error generating " +:+ category_name TechnicalQA +:+ ": " +:+
           exn_str (Exn "ConnectionError" "network unreachable") ∧
    Py.startswith ("Error generating " +:+ category_name TechnicalQA +:+ ": ") text = true.
Proof.
  apply (generation_failure_yields_200_with_error_text
           crewai_down test_llm TechnicalQA body_full
           {| role := "Backend Developer"; experience_level := Some "Fresher";
              tech_stack := Some "Python, SQL" |}
           (Exn "ConnectionError" "network unreachable")).
  - reflexivity.
  - apply kickoff_raises; reflexivity.
Defined.

(** Each stage of the generation is covered: an exception of the agent
    constructor and one of the task constructor end in the same way. *)
Example overview_when_agent_constructor_raises :
  generation_raises crewai_no_agent (agent_args test_llm Overview)
    (task_args test_llm Overview
       {| role := "Data Analyst"; experience_level := Some "Fresher"; tech_stack := None |})
    (Exn "ValidationError" "bad agent") ∧
  json_field (response_of crewai_no_agent test_llm POST_generate_overview body_role_only)
    "overview" = Some (JStr "Error generating overview: bad agent").
Proof. split; [by apply agent_construction_raises | reflexivity]. Qed.

Example hr_qa_when_task_constructor_raises :
  generation_raises crewai_no_task (agent_args test_llm HRQA)
    (task_args test_llm HRQA
       {| role := "Nurse"; experience_level := Some "Senior"; tech_stack := Some "Rust" |})
    (Exn "ValidationError" "bad task") ∧
  json_field (response_of crewai_no_task test_llm POST_generate_hr_qa body_senior)
    "hr_qa" = Some (JStr "Error generating HR Q&A: bad task").
Proof. split; [by apply task_construction_raises | reflexivity]. Qed.
